(** * smart-macro-ai: the analysis adapter and the nutrition history store

    A shallow embedding of [src/models.py], [src/openai_client.py],
    [src/database.py] and the [/history] handler of [src/bot.py], followed
    by the properties of the specification that concern them.

    Conventions of the embedding.
    - A finite Python [float] is a rational ([Q]), the doubles among
      them.  A response and the record made of it may hold NaN and the
      infinities, which [json.loads] reads from the literals of these
      names and from a decimal beyond the range of a double.  A [REAL]
      column holds rationals: a row with an infinity is no row of the
      embedding.
    - The queries of [Database] add and divide in [Q], without the
      rounding of doubles.  [Doubles] gives the sums of
      [get_daily_summary] as SQLite adds them.
    - [utcnow] is a number of microseconds since the epoch.  A stored
      [analyzed_at] is a whole number of seconds since the epoch, which is
      what [CURRENT_TIMESTAMP] records.  SQLite compares the two as ISO
      texts of one format, which agrees with comparing the instants.
    - A date text [YYYY-MM-DD] is the number of its day since the epoch.
    - What SQLite, pydantic and the interpreter leave open is an interface:
      [Engine] for the order of rows whose [ORDER BY] keys are equal,
      [Arithmetic] for the way [SUM] adds doubles, [Runtime] for the
      coercions of pydantic and the text of exceptions.
    - Integers are unbounded: the end of the 64-bit rowids and the range of
      [datetime] are not reached. *)

From Stdlib Require Import ZArith QArith List String Bool Lia.
From Stdlib Require Import Permutation Sorted.
Import ListNotations.

Set Warnings "-register-all".

Local Open Scope string_scope.
Local Open Scope list_scope.
Local Open Scope Z_scope.

(** ** Values decoded by [json.loads] *)

Module Json.

(** The floats that are not finite: [float('nan')], [float('inf')] and
    [float('-inf')]. *)
Inductive nonfinite : Type :=
| NaN
| Infinity (negative : bool).

Inductive json : Type :=
| JNull
| JBool (b : bool)
| JNumber (q : Q)                        (* Python int or finite float *)
| JNonFinite (x : nonfinite)             (* of [NaN], [Infinity], [1e999] *)
| JString (s : string)
| JArray (l : list json)
| JObject (kv : list (string * json)).   (* Python dict, keys unique *)

Definition object := list (string * json).

(** [d.get(k)] *)
Fixpoint get (k : string) (d : object) : option json :=
  match d with
  | [] => None
  | (k', v) :: d' => if String.eqb k k' then Some v else get k d'
  end.

(** [k in d] on a dict *)
Definition mem (k : string) (d : object) : bool :=
  match get k d with Some _ => true | None => false end.

End Json.

(** ** The numbers of a Python [float] and of a [REAL] column *)

Module Binary64.

(** [2^e] *)
Definition pow2 (e : Z) : Q :=
  if 0 <=? e then inject_Z (2 ^ e) else 1 # Z.to_pos (2 ^ (- e)).

(** [m * 2^e] *)
Definition scale (m e : Z) : Q := (inject_Z m * pow2 e)%Q.

(** The finite numbers of IEEE 754 binary64: a mantissa of 53 bits and an
    exponent from -1074 to 971. *)
Definition binary64 (q : Q) : Prop :=
  exists m e : Z,
    Z.abs m < 2 ^ 53 /\ -1074 <= e <= 971 /\ (q == scale m e)%Q.

(** The whole number nearest to [q >= 0], the even one of two. *)
Definition nearest_even (q : Q) : Z :=
  let n := Qnum q in
  let d := Zpos (Qden q) in
  let f := n / d in
  let r := n mod d in
  if 2 * r <? d then f
  else if d <? 2 * r then f + 1
  else if Z.even f then f else f + 1.

(** The exponent of the leading bit of [q > 0]. *)
Definition ilog2 (q : Q) : Z :=
  let l := Z.log2 (Qnum q) - Z.log2 (Zpos (Qden q)) in
  if Qle_bool (pow2 l) q then l else l - 1.

(** Rounding to the nearest binary64 number, ties to even; [None] where
    the result is beyond the range (an infinity of the sign of [q], or
    OverflowError).  A whole number below 2^53 is a binary64 number. *)
Definition round64 (q : Q) : option Q :=
  let q' := Qred q in
  if (Zpos (Qden q') =? 1) && (Z.abs (Qnum q') <? 2 ^ 53) then Some q'
  else
    let a := Z.abs (Qnum q) # Qden q in
    let e := Z.max (ilog2 a - 52) (-1074) in
    let m := nearest_even (a / pow2 e) in
    let e' := if m =? 2 ^ 53 then e + 1 else e in
    let m' := if m =? 2 ^ 53 then 2 ^ 52 else m in
    if (Z.abs m' <? 2 ^ 53) && (e' <=? 971)
    then Some (Qred (scale (Z.sgn (Qnum q) * m') e'))
    else None.

End Binary64.

(** ** [src/models.py] *)

Module Models.
Import Json.

(** A Python [float]. *)
Inductive float : Type :=
| Finite (q : Q)
| NonFinite (x : nonfinite).

(** The class [NutritionInfo], over the type of its five macros: [float]
    as pydantic builds it, [Q] where every macro is finite, which is what
    a row stores. *)
Record NutritionInfo_of (F : Type) : Type := {
  food_name : string;
  calories : F;
  protein_g : F;
  carbs_g : F;
  fats_g : F;
  fiber_g : F;
  serving_size : string;
  confidence : string
}.

Arguments food_name {F} _.
Arguments calories {F} _.
Arguments protein_g {F} _.
Arguments carbs_g {F} _.
Arguments fats_g {F} _.
Arguments fiber_g {F} _.
Arguments serving_size {F} _.
Arguments confidence {F} _.
(* A literal for a macro is read as a rational. *)
Arguments Build_NutritionInfo_of {F} _ (_ _ _ _ _)%_Q _ _.

Definition NutritionInfo : Type := NutritionInfo_of Q.

Record ErrorResponse : Type := { error : string }.

(** Exceptions that the body of [analyze_food_image] can raise on decoded
    data, each with the value that caused it. *)
Inductive exn : Type :=
| TypeError (data : json)
| ValidationError (v : json).

(** What the source takes from pydantic and from the interpreter: the
    validators of the annotations [str] and [float], and [str(e)] of an
    exception.  The one thing fixed is that a text validates as itself.
    Which values the validator of [float] accepts, and what number it
    makes of them, is left open: pydantic takes more than numbers (a
    numeric text, a boolean) and not every number (it refuses an integer
    beyond the range of a double, and rounds one beyond 2^53). *)
Class Runtime : Type := {
  validate_str : json -> option string;
  validate_float : json -> option float;
  str_exn : exn -> string;
  validate_str_text : forall s, validate_str (JString s) = Some s
}.

(** One keyword argument of [Model( **data )]: required ([Field(...)]),
    validated by the annotation. *)
Definition field {T : Type} (validate : json -> option T)
           (k : string) (d : object) : option T :=
  match get k d with
  | Some v => validate v
  | None => None
  end.

Notation "x <- e ;; k" :=
  (match e with Some x => k | None => None end)
    (at level 61, e at next level, right associativity, only parsing).

(** [NutritionInfo( **data )]: [None] stands for [ValidationError].  Keys
    other than the eight fields are ignored. *)
Definition NutritionInfo_init `{Runtime} (d : object)
  : option (NutritionInfo_of float) :=
  a <- field validate_str "food_name" d ;;
  b <- field validate_float "calories" d ;;
  c <- field validate_float "protein_g" d ;;
  e <- field validate_float "carbs_g" d ;;
  f <- field validate_float "fats_g" d ;;
  g <- field validate_float "fiber_g" d ;;
  h <- field validate_str "serving_size" d ;;
  i <- field validate_str "confidence" d ;;
  Some {| food_name := a; calories := b; protein_g := c; carbs_g := e;
          fats_g := f; fiber_g := g; serving_size := h; confidence := i |}.

(** [ErrorResponse(error=v)] *)
Definition ErrorResponse_init `{Runtime} (v : json) : option ErrorResponse :=
  s <- validate_str v ;; Some {| error := s |}.

End Models.

(** ** [src/openai_client.py] *)

Module OpenAIClient.
Import Json Models.

(** What the body of the outer [try] has in hand after [json.loads]. *)
Inductive response : Type :=
| Raised (msg : string)     (* the request or [json.loads] raised an
                               exception other than JSONDecodeError *)
| Undecodable               (* [json.loads] raised JSONDecodeError *)
| Decoded (data : json).

(** The [return] statement that ends the call. *)
Inductive ret : Type :=
| ret_parse_failure         (* line 78 *)
| ret_service_error         (* line 85 *)
| ret_nutrition             (* line 94 *)
| ret_validation_error      (* line 97 *)
| ret_exception.            (* line 103 *)

Definition PARSE_FAILED := "Failed to parse nutrition data. Please try again.".
Definition INVALID_FORMAT := "Invalid nutrition data format. Please try again.".
Definition ANALYZE_FAILED := "Failed to analyze image: ".

Definition is_error (v : json) : bool :=
  match v with JString s => String.eqb s "error" | _ => false end.

(** ["error" in data] *)
Definition contains_error (data : json) : exn + bool :=
  match data with
  | JObject d => inr (mem "error" d)
  | JArray l => inr (existsb is_error l)
  | JString s =>
      inr (match index 0 "error" s with Some _ => true | None => false end)
  | _ => inl (TypeError data)
  end.

(** [data["error"]] *)
Definition subscript_error (data : json) : exn + json :=
  match data with
  | JObject d =>
      match get "error" d with
      | Some v => inr v
      | None => inl (TypeError data)   (* KeyError; not reached *)
      end
  | _ => inl (TypeError data)
  end.

Definition Union : Type := NutritionInfo_of float + ErrorResponse.

(** The outer [except Exception] *)
Definition on_exception `{Runtime} (e : exn) : ret * Union :=
  (ret_exception, inr {| error := (ANALYZE_FAILED ++ str_exn e)%string |}).

(** [analyze_food_image], with the [return] statement it leaves by. *)
Definition analyze_steps `{Runtime} (r : response) : ret * Union :=
  match r with
  | Raised msg =>
      (ret_exception, inr {| error := (ANALYZE_FAILED ++ msg)%string |})
  | Undecodable => (ret_parse_failure, inr {| error := PARSE_FAILED |})
  | Decoded data =>
      match contains_error data with
      | inl e => on_exception e
      | inr true =>
          match subscript_error data with
          | inl e => on_exception e
          | inr v =>
              match ErrorResponse_init v with
              | Some resp => (ret_service_error, inr resp)
              | None => on_exception (ValidationError v)
              end
          end
      | inr false =>
          match data with
          | JObject d =>
              match NutritionInfo_init d with
              | Some nutrition_info => (ret_nutrition, inl nutrition_info)
              | None =>
                  (ret_validation_error, inr {| error := INVALID_FORMAT |})
              end
          | _ => on_exception (TypeError data)   (* [**data] on a non-mapping *)
          end
      end
  end.

Definition analyze_food_image `{Runtime} (r : response) : Union :=
  snd (analyze_steps r).

(** The error kinds of the specification, read off the [return]
    statements: the source has one [ErrorResponse] type and no kind. *)
Inductive ErrorKind : Type :=
| NotFood | MalformedResponse | SchemaViolation | ServiceFailure.

Definition kind_of (s : ret) : option ErrorKind :=
  match s with
  | ret_parse_failure => Some MalformedResponse
  | ret_service_error => Some NotFood
  | ret_nutrition => None
  | ret_validation_error => Some SchemaViolation
  | ret_exception => Some ServiceFailure
  end.

Definition classify `{Runtime} (r : response) : option ErrorKind :=
  kind_of (fst (analyze_steps r)).

(** The validators that accept the annotated JSON type and nothing else:
    a text for [str], a number or a float that is none for [float]. *)
Definition strict_str (v : json) : option string :=
  match v with JString s => Some s | _ => None end.

Definition strict_float (v : json) : option float :=
  match v with
  | JNumber q => Some (Finite q)
  | JNonFinite x => Some (NonFinite x)
  | _ => None
  end.

Definition exn_name (e : exn) : string :=
  match e with
  | TypeError _ => "TypeError"
  | ValidationError _ => "ValidationError"
  end.

#[export] Instance strict : Runtime := {|
  validate_str := strict_str;
  validate_float := strict_float;
  str_exn := exn_name;
  validate_str_text := fun s => eq_refl
|}.

(** The validator of [float] as pydantic has it on a number: the nearest
    double, none for an integer beyond the range of a double, and NaN
    and the infinities as they are. *)
Definition double_float (v : json) : option float :=
  match v with
  | JNumber q =>
      match Binary64.round64 q with
      | Some x => Some (Finite x)
      | None => None
      end
  | JNonFinite x => Some (NonFinite x)
  | _ => None
  end.

Definition doubles : Runtime := {|
  validate_str := strict_str;
  validate_float := double_float;
  str_exn := exn_name;
  validate_str_text := fun s => eq_refl
|}.

End OpenAIClient.

(** ** [src/database.py] *)

Module Database.

(** A row of [nutrition_history]. *)
Record Row : Type := {
  id : Z;
  user_id : Z;
  username : string;
  food_name : string;
  calories : Q;
  protein_g : Q;
  carbs_g : Q;
  fats_g : Q;
  fiber_g : Q;
  serving_size : string;
  confidence : string;
  analyzed_at : Z;
  photo_file_id : string
}.

(** The database file: the table in insertion order and the entry of
    [sqlite_sequence] that [AUTOINCREMENT] maintains for it. *)
Record Store : Type := {
  nutrition_history : list Row;
  sqlite_sequence : Z
}.

(** The state after [init] on a fresh file. *)
Definition init : Store :=
  {| nutrition_history := []; sqlite_sequence := 0 |}.

(** Whether the statements of a call run, or one of them raises and the
    [except Exception] branch of the method is taken. *)
Inductive sqlite : Type := Healthy | Raising.

(** A value of a result dictionary. *)
Inductive value : Type :=
| VNone
| VInt (z : Z)
| VFloat (q : Q)
| VInf (negative : bool)      (* [float('inf')], [float('-inf')] *)
| VStr (s : string)
| VDate (day : Z)
| VList (rows : list (list (string * value))).

Definition dict := list (string * value).

(** [d.get(k)] *)
Fixpoint get (k : string) (d : dict) : option value :=
  match d with
  | [] => None
  | (k', v) :: d' => if String.eqb k k' then Some v else get k d'
  end.

(** [d[k] = v] *)
Fixpoint set (k : string) (v : value) (d : dict) : dict :=
  match d with
  | [] => [(k, v)]
  | (k', v') :: d' =>
      if String.eqb k k' then (k, v) :: d' else (k', v') :: set k v d'
  end.

(** [x] may come before [y] under [ORDER BY key DESC]. *)
Definition descending {A : Type} (key : A -> Z) (x y : A) : Prop :=
  key y <= key x.

(** What SQLite leaves open: [ORDER BY key DESC] returns the rows by
    non-increasing key, in an order of its choice where keys are equal. *)
Class Engine : Type := {
  order_by_desc : forall {A : Type}, (A -> Z) -> list A -> list A;
  order_by_desc_Permutation :
    forall (A : Type) (key : A -> Z) (l : list A),
      Permutation l (order_by_desc key l);
  order_by_desc_Sorted :
    forall (A : Type) (key : A -> Z) (l : list A),
      StronglySorted (descending key) (order_by_desc key l)
}.

(** [LIMIT n]: a negative [n] is no limit. *)
Definition LIMIT {A : Type} (n : Z) (l : list A) : list A :=
  if n <? 0 then l else firstn (Z.to_nat n) l.

Definition CURRENT_TIMESTAMP (utcnow : Z) : Z := utcnow / 1000000.

(** [DATE(analyzed_at)] *)
Definition DATE (t : Z) : Z := t / 86400.

(** [datetime.utcnow().strftime('%Y-%m-%d')] *)
Definition today (utcnow : Z) : Z := utcnow / 86400000000.

(** [datetime.weekday()]: Monday is 0; day 0 of the epoch was a Thursday. *)
Definition weekday (day : Z) : Z := (day + 3) mod 7.

(** [SUM] and [AVG] in the rationals: the sum and the quotient that the
    doubles of SQLite round. *)
Fixpoint SUM (l : list Q) : Q :=
  match l with
  | [] => 0%Q
  | x :: l' => (x + SUM l')%Q
  end.

Definition COUNT {A : Type} (l : list A) : Z := Z.of_nat (List.length l).

Definition AVG (l : list Q) : value :=
  match l with
  | [] => VNone
  | _ => VFloat (SUM l / inject_Z (COUNT l))
  end.

Definition MIN (l : list Z) : value :=
  match l with
  | [] => VNone
  | x :: l' => VDate (fold_right Z.min x l')
  end.

Definition MAX (l : list Z) : value :=
  match l with
  | [] => VNone
  | x :: l' => VDate (fold_right Z.max x l')
  end.

Definition COUNT_DISTINCT (l : list Z) : Z := COUNT (nodup Z.eq_dec l).

(** The largest rowid of the table, 0 when it is empty. *)
Definition max_rowid (rows : list Row) : Z :=
  fold_right (fun r m => Z.max (id r) m) 0 rows.

(** [save_analysis]: the [INSERT] names neither [id] nor [analyzed_at], so
    the first is the [AUTOINCREMENT] key and the second the column default. *)
Definition save_analysis (db : sqlite) (utcnow : Z) (s : Store)
           (user_id : Z) (username : string)
           (nutrition_info : Models.NutritionInfo)
           (photo_file_id : string) : Store * bool :=
  match db with
  | Raising => (s, false)
  | Healthy =>
      let rowid :=
        Z.max (max_rowid (nutrition_history s)) (sqlite_sequence s) + 1 in
      let row :=
        {| id := rowid;
           user_id := user_id;
           username := username;
           food_name := Models.food_name nutrition_info;
           calories := Models.calories nutrition_info;
           protein_g := Models.protein_g nutrition_info;
           carbs_g := Models.carbs_g nutrition_info;
           fats_g := Models.fats_g nutrition_info;
           fiber_g := Models.fiber_g nutrition_info;
           serving_size := Models.serving_size nutrition_info;
           confidence := Models.confidence nutrition_info;
           analyzed_at := CURRENT_TIMESTAMP utcnow;
           photo_file_id := photo_file_id |} in
      ({| nutrition_history := nutrition_history s ++ [row];
          sqlite_sequence := rowid |}, true)
  end.

(** The defaults of the parameters [days] and [limit] of
    [get_user_history]. *)
Definition default_days : Z := 1.
Definition default_limit : Z := 20.

(** [WHERE user_id = ? AND analyzed_at >= ?] *)
Definition recent (u cutoff : Z) (r : Row) : bool :=
  (user_id r =? u) && (cutoff <=? analyzed_at r * 1000000).

(** [get_user_history]; a row stands for its dictionary. *)
Definition get_user_history `{Engine} (db : sqlite) (utcnow : Z) (s : Store)
           (u : Z) (days : Z) (limit : Z) : list Row :=
  match db with
  | Raising => []
  | Healthy =>
      let cutoff_date := utcnow - days * 86400000000 in
      LIMIT limit
        (order_by_desc analyzed_at
           (filter (recent u cutoff_date) (nutrition_history s)))
  end.

(** [WHERE user_id = ? AND DATE(analyzed_at) = ?] *)
Definition on_date (u date : Z) (r : Row) : bool :=
  (user_id r =? u) && (DATE (analyzed_at r) =? date).

(** [get_daily_summary]: the rows selected share their date, so
    [GROUP BY DATE(analyzed_at)] makes one group of them, or none. *)
Definition get_daily_summary (db : sqlite) (utcnow : Z) (s : Store)
           (u : Z) (date : option Z) : option dict :=
  match db with
  | Raising => None
  | Healthy =>
      let date := match date with Some d => d | None => today utcnow end in
      match filter (on_date u date) (nutrition_history s) with
      | [] => None
      | rows =>
          Some [ ("date", VDate date);
                 ("meal_count", VInt (COUNT rows));
                 ("total_calories", VFloat (SUM (map calories rows)));
                 ("total_protein_g", VFloat (SUM (map protein_g rows)));
                 ("total_carbs_g", VFloat (SUM (map carbs_g rows)));
                 ("total_fats_g", VFloat (SUM (map fats_g rows)));
                 ("total_fiber_g", VFloat (SUM (map fiber_g rows))) ]
      end
  end.

(** [SELECT food_name, COUNT( * ) ... GROUP BY food_name] *)
Definition group_by_food_name (rows : list Row) : list (string * Z) :=
  let names := map food_name rows in
  map (fun n => (n, Z.of_nat (count_occ string_dec names n)))
      (nodup string_dec names).

Definition food_dict (g : string * Z) : list (string * value) :=
  [ ("food_name", VStr (fst g)); ("count", VInt (snd g)) ].

(** [WHERE user_id = ? AND DATE(analyzed_at) >= ?] *)
Definition since (u start_date : Z) (r : Row) : bool :=
  (user_id r =? u) && (start_date <=? DATE (analyzed_at r)).

(** [get_weekly_stats] *)
Definition get_weekly_stats `{Engine} (db : sqlite) (utcnow : Z) (s : Store)
           (u : Z) : option dict :=
  match db with
  | Raising => None
  | Healthy =>
      let start_date := today utcnow - weekday (today utcnow) in
      let rows := filter (since u start_date) (nutrition_history s) in
      let stats :=
        [ ("total_analyses", VInt (COUNT rows));
          ("avg_calories", AVG (map calories rows));
          ("avg_protein", AVG (map protein_g rows));
          ("avg_carbs", AVG (map carbs_g rows));
          ("avg_fats", AVG (map fats_g rows));
          ("avg_fiber", AVG (map fiber_g rows));
          ("start_date", MIN (map (fun r => DATE (analyzed_at r)) rows));
          ("end_date", MAX (map (fun r => DATE (analyzed_at r)) rows)) ] in
      let most_common :=
        LIMIT 1 (order_by_desc snd (group_by_food_name rows)) in
      let stats :=
        set "most_common_food"
            (match most_common with
             | g :: _ => VStr (fst g)
             | [] => VNone
             end) stats in
      if 0 <? COUNT rows then Some stats else None
  end.

(** [WHERE user_id = ?] *)
Definition of_user (u : Z) (r : Row) : bool := user_id r =? u.

(** [get_all_time_stats] *)
Definition get_all_time_stats `{Engine} (db : sqlite) (s : Store)
           (u : Z) : option dict :=
  match db with
  | Raising => None
  | Healthy =>
      let rows := filter (of_user u) (nutrition_history s) in
      let stats :=
        [ ("total_analyses", VInt (COUNT rows));
          ("avg_calories", AVG (map calories rows));
          ("avg_protein", AVG (map protein_g rows));
          ("avg_carbs", AVG (map carbs_g rows));
          ("avg_fats", AVG (map fats_g rows));
          ("first_analysis", MIN (map (fun r => DATE (analyzed_at r)) rows));
          ("days_tracked",
            VInt (COUNT_DISTINCT
                    (map (fun r => DATE (analyzed_at r)) rows))) ] in
      let top_foods :=
        LIMIT 3 (order_by_desc snd (group_by_food_name rows)) in
      let stats := set "top_foods" (VList (map food_dict top_foods)) stats in
      if 0 <? COUNT rows then Some stats else None
  end.

(** Two engines.  Both sort by insertion; where keys are equal the first
    keeps the order of its input and the second reverses it. *)
Fixpoint insert_desc {A : Type} (key : A -> Z) (x : A) (l : list A) : list A :=
  match l with
  | [] => [x]
  | y :: l' =>
      if key y <=? key x then x :: y :: l' else y :: insert_desc key x l'
  end.

Definition sort_desc {A : Type} (key : A -> Z) (l : list A) : list A :=
  fold_right (insert_desc key) [] l.

Definition sort_desc_rev {A : Type} (key : A -> Z) (l : list A) : list A :=
  sort_desc key (rev l).

End Database.

(** ** [src/database.py]: the sums of [get_daily_summary] as SQLite adds *)

Module Doubles.
Import Binary64 Database.

(** The values of [column] over [rows] are the whole numbers [zs]. *)
Definition whole (column : Row -> Q) (rows : list Row) (zs : list Z) : Prop :=
  Forall2 (fun r z => (column r == inject_Z z)%Q) rows zs.

Definition magnitude (zs : list Z) : Z :=
  fold_right (fun z t => Z.abs z + t) 0 zs.

Definition total (zs : list Z) : Z := fold_right Z.add 0 zs.

(** A Python [float] that is not NaN. *)
Definition is_float (v : value) : Prop :=
  (exists q, v = VFloat q) \/ (exists negative, v = VInf negative).

(** What SQLite leaves open in [SUM] over a [REAL] column: the order in
    which it visits the rows and the way it adds the doubles (one addition
    after the other, or with a compensation term, as its version has it).
    The sum of a group is a float, a double where it is finite, and it is
    exact where every such way is: on whole numbers whose magnitudes add
    up to less than 2^53. *)
Class Arithmetic : Type := {
  SUM_REAL : (Row -> Q) -> list Row -> value;
  SUM_REAL_float :
    forall column rows, rows <> [] -> is_float (SUM_REAL column rows);
  SUM_REAL_binary64 :
    forall column rows q, SUM_REAL column rows = VFloat q -> binary64 q;
  SUM_REAL_whole :
    forall column rows zs,
      rows <> [] -> whole column rows zs -> magnitude zs < 2 ^ 53 ->
      exists q,
        SUM_REAL column rows = VFloat q /\ (q == inject_Z (total zs))%Q
}.

(** [get_daily_summary], the five sums being those of SQLite. *)
Definition get_daily_summary_binary64 `{Arithmetic} (db : sqlite) (utcnow : Z)
           (s : Store) (u : Z) (date : option Z) : option dict :=
  match db with
  | Raising => None
  | Healthy =>
      let date := match date with Some d => d | None => today utcnow end in
      match filter (on_date u date) (nutrition_history s) with
      | [] => None
      | rows =>
          Some [ ("date", VDate date);
                 ("meal_count", VInt (COUNT rows));
                 ("total_calories", SUM_REAL calories rows);
                 ("total_protein_g", SUM_REAL protein_g rows);
                 ("total_carbs_g", SUM_REAL carbs_g rows);
                 ("total_fats_g", SUM_REAL fats_g rows);
                 ("total_fiber_g", SUM_REAL fiber_g rows) ]
      end
  end.

(** The five totals of the summary and their columns. *)
Definition totals : list (string * (Row -> Q)) :=
  [ ("total_calories", calories); ("total_protein_g", protein_g);
    ("total_carbs_g", carbs_g); ("total_fats_g", fats_g);
    ("total_fiber_g", fiber_g) ].

(** One arithmetic: the rows in the order of the table, one rounded
    addition after the other; past the range the sum is an infinity and
    stays one. *)
Definition add64 (acc : value) (x : Q) : value :=
  match acc with
  | VFloat a =>
      match round64 (a + x) with
      | Some y => VFloat y
      | None => VInf (Qnum (a + x) <? 0)
      end
  | _ => acc
  end.

Definition sum_in_table_order (column : Row -> Q) (rows : list Row) : value :=
  match rows with
  | [] => VNone
  | _ => fold_left add64 (map column rows) (VFloat 0)
  end.

End Doubles.

(** ** [src/bot.py]: the [/history] command *)

Module Bot.
Import Database.

(** The second word of the message text, as [int(parts[1])] sees it. *)
Inductive days_arg : Type :=
| Absent                 (* [len(parts) <= 1] *)
| NotAnInt               (* [int] raises ValueError *)
| Int (days : Z).

(** The [days] that [cmd_history] passes on: [max(1, min(days, 30))] of
    the argument, or of 1 without one; 1 when [int] raises. *)
Definition history_days (a : days_arg) : Z :=
  match a with
  | Absent => Z.max 1 (Z.min 1 30)
  | NotAnInt => 1
  | Int days => Z.max 1 (Z.min days 30)
  end.

(** The [history] that [cmd_history] formats: [limit] is left to its
    default. *)
Definition cmd_history `{Engine} (db : sqlite) (utcnow : Z) (s : Store)
           (user_id : Z) (a : days_arg) : list Row :=
  get_user_history db utcnow s user_id (history_days a) default_limit.

End Bot.

(** ** [src/bot.py]: the handlers and the message each one answers

    A reply stands for the last text that the handler passes to
    [message.answer], with the data that the text is formatted from.
    Sending is taken to succeed in the commands, which do nothing after
    it; [handle_photo] saves after it has answered, and there sending is
    an input and the call of [save_analysis] a result. *)

Module Handlers.
Import Json Models OpenAIClient Database Bot.

(** What [handle_photo] reads of the message. *)
Record photo_message : Type := {
  from_id : Z;                      (* [message.from_user.id] *)
  from_username : option string;    (* [message.from_user.username] *)
  from_first_name : string;         (* [message.from_user.first_name] *)
  file_id : string                  (* [message.photo[-1].file_id] *)
}.

(** [a or b] on an optional text: [None] and the empty text are false. *)
Definition or_text (a : option string) (b : string) : string :=
  match a with
  | Some s => if String.eqb s "" then b else s
  | None => b
  end.

(** [message.from_user.username or message.from_user.first_name
    or "Unknown"] *)
Definition sender_name (m : photo_message) : string :=
  or_text (from_username m) (or_text (Some (from_first_name m)) "Unknown").

Inductive photo_reply : Type :=
| NutritionMessage (result : NutritionInfo_of float)
                                    (* [result.format_message()] *)
| UnableToAnalyze (error : string)
| ErrorProcessing.                  (* the outer [except] *)

(** The keyword arguments of a call of [database.save_analysis]. *)
Record save_call : Type := {
  call_user_id : Z;
  call_username : string;
  call_nutrition_info : NutritionInfo_of float;
  call_photo_file_id : string
}.

(** [handle_photo]: what it answers, and the call of [save_analysis] that
    it makes, if it makes one.  [downloaded] tells whether the calls to
    Telegram that fetch the photo return, [r] is what the service call
    then comes to, and [sent] whether the [message.answer] that follows
    returns.  Where it raises (line 128 or 149) the outer [except]
    answers in its place and what comes after it in the [try], the call
    of [save_analysis], is not run. *)
Definition handle_photo `{Runtime} (m : photo_message) (downloaded : bool)
           (r : response) (sent : bool) : photo_reply * option save_call :=
  if downloaded then
    match analyze_food_image r with
    | inl result =>
        if sent then
          (NutritionMessage result,
           Some {| call_user_id := from_id m;
                   call_username := sender_name m;
                   call_nutrition_info := result;
                   call_photo_file_id := file_id m |})
        else (ErrorProcessing, None)
    | inr e =>
        if sent then (UnableToAnalyze (error e), None)
        else (ErrorProcessing, None)
    end
  else (ErrorProcessing, None).

(** The macros of a record as numbers, where each of them is finite. *)
Definition finite_float (x : float) : option Q :=
  match x with
  | Finite q => Some q
  | NonFinite _ => None
  end.

Definition finite (n : NutritionInfo_of float) : option NutritionInfo :=
  a <- finite_float (Models.calories n) ;;
  b <- finite_float (Models.protein_g n) ;;
  c <- finite_float (Models.carbs_g n) ;;
  e <- finite_float (Models.fats_g n) ;;
  f <- finite_float (Models.fiber_g n) ;;
  Some {| Models.food_name := Models.food_name n;
          Models.calories := a; Models.protein_g := b; Models.carbs_g := c;
          Models.fats_g := e; Models.fiber_g := f;
          Models.serving_size := Models.serving_size n;
          Models.confidence := Models.confidence n |}.

(** ["Today" if days == 1 else f"Last {days} Days"] *)
Inductive period : Type := Today | LastDays (days : Z).

Inductive history_reply : Type :=
| NoMealHistory (days : Z)
| RecentMeals (p : period) (entries : list (nat * Row)).

(** The message of [cmd_history]: [enumerate(history, 1)]. *)
Definition history_message `{Engine} (db : sqlite) (utcnow : Z) (s : Store)
           (user_id : Z) (a : days_arg) : history_reply :=
  let days := history_days a in
  match get_user_history db utcnow s user_id days default_limit with
  | [] => NoMealHistory days
  | history =>
      RecentMeals (if days =? 1 then Today else LastDays days)
                  (combine (seq 1 (List.length history)) history)
  end.

Inductive today_reply : Type :=
| NoMealsToday
| TodaySummary (summary_data : dict).   (* [DailySummary( **summary_data )] *)

(** [cmd_today].  [datetime.now()] is the local time of the server:
    [offset] is its distance to UTC, in microseconds. *)
Definition cmd_today (db : sqlite) (utcnow offset : Z) (s : Store)
           (user_id : Z) : today_reply :=
  let today := (utcnow + offset) / 86400000000 in
  match get_daily_summary db utcnow s user_id (Some today) with
  | None => NoMealsToday
  | Some summary_data => TodaySummary summary_data
  end.

(** [not v] of Python, on a value of a result dictionary. *)
Definition falsy (v : value) : bool :=
  match v with
  | VNone => true
  | VInt z => z =? 0
  | VFloat q => Qeq_bool q 0
  | VInf _ => false
  | VStr s => String.eqb s ""
  | VDate _ => false
  | VList l => match l with [] => true | _ => false end
  end.

(** [v or d] *)
Definition or_value (v d : value) : value := if falsy v then d else v.

(** The keyword arguments of [WeeklyStats(...)] in [cmd_week]; [None] is
    the KeyError of a subscript. *)
Definition WeeklyStats_kwargs (stats_data : dict) : option dict :=
  start_date <- get "start_date" stats_data ;;
  end_date <- get "end_date" stats_data ;;
  total_analyses <- get "total_analyses" stats_data ;;
  avg_calories <- get "avg_calories" stats_data ;;
  avg_protein <- get "avg_protein" stats_data ;;
  avg_carbs <- get "avg_carbs" stats_data ;;
  avg_fats <- get "avg_fats" stats_data ;;
  Some [ ("start_date", or_value start_date (VStr "This week"));
         ("end_date", or_value end_date (VStr "Today"));
         ("total_analyses", total_analyses);
         ("avg_daily_calories", or_value avg_calories (VInt 0));
         ("avg_daily_protein", or_value avg_protein (VInt 0));
         ("avg_daily_carbs", or_value avg_carbs (VInt 0));
         ("avg_daily_fats", or_value avg_fats (VInt 0));
         ("most_common_food",
           match get "most_common_food" stats_data with
           | Some v => v
           | None => VNone
           end) ].

Inductive week_reply : Type :=
| NoDataThisWeek
| WeekStatistics (stats : dict)
| UnableToLoadWeek.                 (* the [except] of [cmd_week] *)

(** [cmd_week] *)
Definition cmd_week `{Engine} (db : sqlite) (utcnow : Z) (s : Store)
           (user_id : Z) : week_reply :=
  match get_weekly_stats db utcnow s user_id with
  | None => NoDataThisWeek
  | Some stats_data =>
      match WeeklyStats_kwargs stats_data with
      | Some stats => WeekStatistics stats
      | None => UnableToLoadWeek
      end
  end.

Inductive stats_reply : Type :=
| NoStatisticsYet
| AllTimeStatistics (stats_data : dict).

(** [cmd_stats] *)
Definition cmd_stats `{Engine} (db : sqlite) (s : Store)
           (user_id : Z) : stats_reply :=
  match get_all_time_stats db s user_id with
  | None => NoStatisticsYet
  | Some stats_data => AllTimeStatistics stats_data
  end.

End Handlers.

(** * The statements of the specification *)

(** ** The analysis adapter *)

Module AdapterSpec.
Import Json Models.

(** The field [k] of [d] is present and its validator accepts it. *)
Definition has {T : Type} (validate : json -> option T)
           (k : string) (d : object) : Prop :=
  exists v x, get k d = Some v /\ validate v = Some x.

(** Presence and type of the eight required fields, which is all that the
    annotations of [NutritionInfo] ask for. *)
Definition well_typed `{Runtime} (d : object) : Prop :=
  has validate_str "food_name" d /\
  has validate_float "calories" d /\
  has validate_float "protein_g" d /\
  has validate_float "carbs_g" d /\
  has validate_float "fats_g" d /\
  has validate_float "fiber_g" d /\
  has validate_str "serving_size" d /\
  has validate_str "confidence" d.

(** The record holds the validated values of the fields of [d]. *)
Definition holds `{Runtime} (d : object) (n : NutritionInfo_of float)
  : Prop :=
  field validate_str "food_name" d = Some (food_name n) /\
  field validate_float "calories" d = Some (calories n) /\
  field validate_float "protein_g" d = Some (protein_g n) /\
  field validate_float "carbs_g" d = Some (carbs_g n) /\
  field validate_float "fats_g" d = Some (fats_g n) /\
  field validate_float "fiber_g" d = Some (fiber_g n) /\
  field validate_str "serving_size" d = Some (serving_size n) /\
  field validate_str "confidence" d = Some (confidence n).

(** The validation that the specification describes: the constraints on
    the values, beyond presence and type. *)
Definition non_negative (x : float) : Prop :=
  match x with
  | Finite q => (0 <= q)%Q
  | NonFinite (Infinity negative) => negative = false
  | NonFinite NaN => False
  end.

Definition in_range (n : NutritionInfo_of float) : Prop :=
  food_name n <> "" /\
  non_negative (calories n) /\ non_negative (protein_g n) /\
  non_negative (carbs_g n) /\ non_negative (fats_g n) /\
  non_negative (fiber_g n) /\
  serving_size n <> "" /\
  (confidence n = "high" \/ confidence n = "medium" \/ confidence n = "low").

End AdapterSpec.

(** *** Responses on which the code and the specification part *)

Module Samples.
Import Json Models OpenAIClient.

(** Every constraint of the specification broken, every field present and
    of its type. *)
Definition out_of_range : object :=
  [ ("food_name", JString "");
    ("calories", JNumber (-100 # 1));
    ("protein_g", JNumber (-1 # 1));
    ("carbs_g", JNumber 0);
    ("fats_g", JNumber 0);
    ("fiber_g", JNumber 0);
    ("serving_size", JString "");
    ("confidence", JString "banana") ].

Definition pizza : object :=
  [ ("food_name", JString "Pizza");
    ("calories", JNumber (450 # 1));
    ("protein_g", JNumber (18 # 1));
    ("carbs_g", JNumber (52 # 1));
    ("fats_g", JNumber (17 # 1));
    ("fiber_g", JNumber (3 # 1));
    ("serving_size", JString "2 slices");
    ("confidence", JString "high") ].

(** A number of calories beyond the range of a double. *)
Definition huge_calories : object :=
  [ ("food_name", JString "Pizza");
    ("calories", JNumber (inject_Z (10 ^ 400)));
    ("protein_g", JNumber (18 # 1));
    ("carbs_g", JNumber (52 # 1));
    ("fats_g", JNumber (17 # 1));
    ("fiber_g", JNumber (3 # 1));
    ("serving_size", JString "2 slices");
    ("confidence", JString "high") ].

(** [NaN] for the calories. *)
Definition nan_calories : object :=
  [ ("food_name", JString "Pizza");
    ("calories", JNonFinite NaN);
    ("protein_g", JNumber (18 # 1));
    ("carbs_g", JNumber (52 # 1));
    ("fats_g", JNumber (17 # 1));
    ("fiber_g", JNumber (3 # 1));
    ("serving_size", JString "2 slices");
    ("confidence", JString "high") ].

(** A full set of valid nutrition fields next to an [error] field. *)
Definition pizza_with_error : object :=
  ("error", JString "This may not be food") :: pizza.

End Samples.

(** ** The history store *)

Module StoreSpec.
Import Database.

(** The number of rows that carry the food name [n]. *)
Definition occurrences (rows : list Row) (n : string) : Z :=
  Z.of_nat (count_occ string_dec (map food_name rows) n).

(** [top] ranks food names of [rows] by count, [k] of them at most: every
    entry carries the count of its name, no name comes twice, counts do not
    increase along the list, and a name left out occurs no more often than
    any name listed.  Nothing is said of the order of equal counts. *)
Record ranked_by_count (rows : list Row) (k : nat)
       (top : list (string * Z)) : Prop := {
  ranked_counts :
    forall n c, In (n, c) top -> c = occurrences rows n /\ 1 <= c;
  ranked_names : NoDup (map fst top);
  ranked_sorted : StronglySorted (descending snd) top;
  ranked_best :
    forall r, In r rows ->
      In (food_name r) (map fst top) \/
      forall g, In g top -> occurrences rows (food_name r) <= snd g;
  ranked_length :
    List.length top =
    Nat.min k (List.length (nodup string_dec (map food_name rows)))
}.

(** The rule of the specification: the higher count first and, of two
    names with one count, the lexicographically smaller first. *)
Definition precedes (a b : string * Z) : Prop :=
  snd b < snd a \/ (snd a = snd b /\ String.ltb (fst a) (fst b) = true).

(** The rows that each query selects. *)
Definition monday (utcnow : Z) : Z := today utcnow - weekday (today utcnow).

Definition all_time (s : Store) (u : Z) : list Row :=
  filter (of_user u) (nutrition_history s).

Definition this_week (utcnow : Z) (s : Store) (u : Z) : list Row :=
  filter (since u (monday utcnow)) (nutrition_history s).

Definition that_day (s : Store) (u date : Z) : list Row :=
  filter (on_date u date) (nutrition_history s).

Definition window (utcnow : Z) (s : Store) (u days : Z) : list Row :=
  filter (recent u (utcnow - days * 86400000000)) (nutrition_history s).

(** The mean of a column over rows, each row counting once. *)
Definition mean (column : Row -> Q) (rows : list Row) : Q :=
  (SUM (map column rows) / inject_Z (COUNT rows))%Q.

(** The average per day: the sum of a column over the number of days that
    have a row. *)
Definition per_day (column : Row -> Q) (rows : list Row) : Q :=
  (SUM (map column rows) /
   inject_Z (COUNT_DISTINCT (map (fun r => DATE (analyzed_at r)) rows)))%Q.

(** The date of a row. *)
Definition day_of (r : Row) : Z := DATE (analyzed_at r).

End StoreSpec.

(** *** Stores built by [save_analysis] *)

Module Stores.
Import Database.

Definition meal (name : string) (kcal : Q) (fiber : Q) : Models.NutritionInfo :=
  {| Models.food_name := name; Models.calories := kcal;
     Models.protein_g := 10; Models.carbs_g := 20; Models.fats_g := 5;
     Models.fiber_g := fiber; Models.serving_size := "1 plate";
     Models.confidence := "medium" |}.

(** [save_analysis] for the user 7 at the hour [h] of the epoch. *)
Definition log (h : Z) (n : Models.NutritionInfo) (s : Store) : Store :=
  fst (save_analysis Healthy (h * 3600000000) s 7 "sam" n "file").

(** Day 4 of the epoch is a Monday.  Three meals on it. *)
Definition three_meals : Store :=
  log 110 (meal "Soup" 500 2) (log 104 (meal "Rice" 300 1)
    (log 100 (meal "Toast" 200 3) init)).

(** Three rows on the Monday and one on the Tuesday. *)
Definition uneven_week : Store :=
  log 130 (meal "Pasta" 900 4) (log 110 (meal "Toast" 100 3)
    (log 104 (meal "Toast" 100 3) (log 100 (meal "Toast" 100 3) init))).

(** The Wednesday of that week, noon. *)
Definition wednesday : Z := 156 * 3600000000.

(** [n] more meals in the hour 150. *)
Fixpoint snacks (n : nat) (s : Store) : Store :=
  match n with
  | O => s
  | S n' => log 150 (meal "Snack" 50 1) (snacks n' s)
  end.

(** One Apple, then one Banana. *)
Definition apple_banana : Store :=
  log 104 (meal "Banana" 90 3) (log 100 (meal "Apple" 50 2) init).

(** A meal of 10^16 kcal and a meal of 1 kcal on the Monday. *)
Definition feast_and_crumb : Store :=
  log 104 (meal "Crumb" 1 0) (log 100 (meal "Feast" 10000000000000000 0) init).

(** A row at hour 100 and a row at hour 123, read at hour 125. *)
Definition two_rows : Store :=
  log 123 (meal "Salad" 150 4) (log 100 (meal "Steak" 700 0) init).

End Stores.

(** *** Histories of a store *)

Module Reach.
Import Database.

(** [s'] comes from [s] by calls of [save_analysis], whether or not
    SQLite raises in them. *)
Inductive extends (s : Store) : Store -> Prop :=
| extends_refl : extends s s
| extends_save (db : sqlite) (utcnow : Z) (s' : Store) (u : Z)
    (name : string) (n : Models.NutritionInfo) (photo : string) :
    extends s s' ->
    extends s (fst (save_analysis db utcnow s' u name n photo)).

(** A store of the application: [init], then calls of [save_analysis]. *)
Definition reachable (s : Store) : Prop := extends init s.

(** The sum of the counts of a ranking. *)
Definition total_count (groups : list (string * Z)) : Z :=
  fold_right Z.add 0 (map snd groups).

(** The number that a value stands for. *)
Definition number (v : value) : option Q :=
  match v with
  | VInt z => Some (inject_Z z)
  | VFloat q => Some q
  | _ => None
  end.

(** Three Apples and a Banana in the week of [Stores.wednesday]. *)
Definition apples_and_banana : Store :=
  Stores.log 120 (Stores.meal "Apple" 50 2)
    (Stores.log 110 (Stores.meal "Banana" 90 3)
       (Stores.log 104 (Stores.meal "Apple" 50 2)
          (Stores.log 100 (Stores.meal "Apple" 50 2) init))).

End Reach.

(** * Properties *)

(** ** The analysis adapter *)

Section Adapter.
Import Json Models OpenAIClient AdapterSpec.
Context {R : Runtime}.

Lemma field_Some (T : Type) (validate : json -> option T) k d x :
  field validate k d = Some x <->
  exists v, get k d = Some v /\ validate v = Some x.
Proof.
  unfold field. destruct (get k d) as [v|].
  - split.
    + intros Hv. exists v. auto.
    + intros [v' [Hget Hv]]. injection Hget as ->. exact Hv.
  - split; [discriminate | intros [v' [Hget _]]; discriminate].
Qed.

Lemma field_has (T : Type) (validate : json -> option T) k d :
  has validate k d <-> exists x, field validate k d = Some x.
Proof.
  unfold has. split.
  - intros [v [x [Hget Hv]]]. exists x. apply field_Some. eauto.
  - intros [x Hx]. apply field_Some in Hx. destruct Hx as [v [Hget Hv]]. eauto.
Qed.

Lemma field_None (T : Type) (validate : json -> option T) k d :
  field validate k d = None -> ~ has validate k d.
Proof.
  intros Hnone Hhas. apply field_has in Hhas. destruct Hhas as [x Hx].
  congruence.
Qed.

(** The next field of the constructor is there, or the goal is void. *)
Ltac required :=
  match goal with
  | |- context [field ?validate ?k ?d] =>
      destruct (field validate k d); [|discriminate]
  end.

Lemma NutritionInfo_init_Some d n :
  NutritionInfo_init d = Some n -> holds d n.
Proof.
  unfold NutritionInfo_init, holds. do 8 required.
  intros Hn. injection Hn as <-. simpl. repeat split.
Qed.

Lemma NutritionInfo_init_well_typed d :
  well_typed d <-> exists n, NutritionInfo_init d = Some n.
Proof.
  split.
  - intros (H1 & H2 & H3 & H4 & H5 & H6 & H7 & H8).
    apply field_has in H1, H2, H3, H4, H5, H6, H7, H8.
    destruct H1 as [a H1], H2 as [b H2], H3 as [c H3], H4 as [e H4],
             H5 as [f H5], H6 as [g H6], H7 as [h H7], H8 as [i H8].
    unfold NutritionInfo_init.
    rewrite H1, H2, H3, H4, H5, H6, H7, H8. eexists. reflexivity.
  - intros [n Hn]. apply NutritionInfo_init_Some in Hn.
    destruct Hn as (H1 & H2 & H3 & H4 & H5 & H6 & H7 & H8).
    repeat split; apply field_has; eauto.
Qed.

Lemma NutritionInfo_init_None d :
  NutritionInfo_init d = None <-> ~ well_typed d.
Proof.
  rewrite NutritionInfo_init_well_typed. split.
  - intros Hnone [n Hn]. congruence.
  - intros Hno. destruct (NutritionInfo_init d) as [n|]; [|reflexivity].
    exfalso. apply Hno. eauto.
Qed.

(** Without an [error] key the call ends in one of two [return]s. *)
Lemma analyze_steps_object d :
  get "error" d = None ->
  analyze_steps (Decoded (JObject d)) =
  match NutritionInfo_init d with
  | Some n => (ret_nutrition, inl n)
  | None => (ret_validation_error, inr {| error := INVALID_FORMAT |})
  end.
Proof.
  intros Herr. unfold analyze_steps, contains_error, mem. rewrite Herr.
  reflexivity.
Qed.

(** With an [error] key the nutrition fields are not looked at. *)
Lemma analyze_steps_error d v :
  get "error" d = Some v ->
  analyze_steps (Decoded (JObject d)) =
  match validate_str v with
  | Some s => (ret_service_error, inr {| error := s |})
  | None => on_exception (ValidationError v)
  end.
Proof.
  intros Herr.
  unfold analyze_steps, contains_error, subscript_error, mem,
    ErrorResponse_init.
  rewrite Herr. destruct (validate_str v); reflexivity.
Qed.

(** What is decoded but is no object leaves by the outer handler. *)
Lemma analyze_steps_non_object data :
  (forall d, data <> JObject d) ->
  analyze_steps (Decoded data) = on_exception (TypeError data).
Proof.
  intros Hno. destruct data as [ | b | q | x | s | l | d ]; try reflexivity.
  - unfold analyze_steps, contains_error.
    destruct (index 0 "error" s); reflexivity.
  - unfold analyze_steps, contains_error.
    destruct (existsb is_error l); reflexivity.
  - exfalso. apply (Hno d). reflexivity.
Qed.

Lemma undecodable_is_malformed :
  analyze_steps Undecodable =
  (ret_parse_failure, inr {| error := PARSE_FAILED |}).
Proof. reflexivity. Qed.

(** No response that fails to decode, or decodes to something else than an
    object, yields a nutrition record. *)
Lemma no_record_without_object r n :
  analyze_food_image r = inl n -> exists d, r = Decoded (JObject d).
Proof.
  unfold analyze_food_image. intros Hn.
  destruct r as [ msg | | data ]; try discriminate.
  destruct data as [ | b | q | x | s | l | d ];
    try (rewrite analyze_steps_non_object in Hn by discriminate;
         discriminate).
  exists d. reflexivity.
Qed.

(** C2, as amended.  For an object without an [error] field, the call
    checks that each of the eight required fields is present and accepted
    by the validator of its annotation ([str] or [float]): it ends in the
    schema error exactly when one of them is missing or ill-typed, and
    otherwise returns the record of the validated values, whatever they
    are.  Non-emptiness, sign and the three confidence levels are not
    checked. *)
Theorem C2_schema_error_iff_missing_or_ill_typed (d : object) :
  get "error" d = None ->
  (classify (Decoded (JObject d)) = Some SchemaViolation <-> ~ well_typed d) /\
  (~ well_typed d ->
   analyze_food_image (Decoded (JObject d)) =
   inr {| error := INVALID_FORMAT |}) /\
  (well_typed d ->
   exists n, analyze_food_image (Decoded (JObject d)) = inl n /\ holds d n).
Proof.
  intros Herr. unfold classify, analyze_food_image.
  rewrite (analyze_steps_object _ Herr).
  destruct (NutritionInfo_init d) as [n|] eqn:Hinit.
  - assert (Hwt : well_typed d)
      by (apply NutritionInfo_init_well_typed; eauto).
    repeat split.
    + discriminate.
    + intros Hno. contradiction.
    + intros Hno. contradiction.
    + intros _. exists n. split; [reflexivity|].
      apply NutritionInfo_init_Some. exact Hinit.
  - assert (Hno : ~ well_typed d)
      by (apply NutritionInfo_init_None; exact Hinit).
    repeat split; auto. intros Hwt. contradiction.
Qed.

(** C3, as amended.  An object is answered by the not-food error exactly
    when it has an [error] field that validates as text, and the error
    then carries that text; the nutrition fields play no part. *)
Theorem C3_not_food_iff_error_field (d : object) :
  (classify (Decoded (JObject d)) = Some NotFood <->
   exists v s, get "error" d = Some v /\ validate_str v = Some s) /\
  (forall s, get "error" d = Some (JString s) ->
   analyze_steps (Decoded (JObject d)) =
   (ret_service_error, inr {| error := s |})).
Proof.
  split.
  - unfold classify. destruct (get "error" d) as [v|] eqn:Herr.
    + rewrite (analyze_steps_error _ _ Herr).
      destruct (validate_str v) as [s|] eqn:Hv; simpl.
      * split; [intros _; exists v, s; auto | reflexivity].
      * split; [discriminate|].
        intros [v' [s [Hget Hs]]]. injection Hget as <-. congruence.
    + rewrite (analyze_steps_object _ Herr).
      destruct (NutritionInfo_init d); simpl;
        (split; [discriminate | intros [v [s [Hget _]]]; discriminate]).
  - intros s Herr. rewrite (analyze_steps_error _ _ Herr).
    rewrite validate_str_text. reflexivity.
Qed.

(** C4, at a response that decodes to an array.  [json.loads] accepts it,
    ["error" in data] is false, [NutritionInfo( **data )] raises TypeError
    and the call ends in the handler of service failures, with the text of
    that exception; the parse error of line 78 is reserved to
    JSONDecodeError. *)
Theorem C4_array_is_reported_as_service_failure :
  classify (Decoded (JArray [])) = Some ServiceFailure /\
  analyze_food_image (Decoded (JArray [])) =
  inr {| error :=
           (ANALYZE_FAILED ++ str_exn (TypeError (JArray [])))%string |} /\
  classify Undecodable = Some MalformedResponse.
Proof. repeat split. Qed.

End Adapter.

Section AdapterSamples.
Import Json Models OpenAIClient AdapterSpec Samples.

(** C2 at a well-typed object: the record is returned. *)
Lemma C2_witness :
  get "error" pizza = None /\
  exists n, analyze_food_image (Decoded (JObject pizza)) = inl n /\
            holds pizza n.
Proof.
  split; [reflexivity|].
  apply (C2_schema_error_iff_missing_or_ill_typed (R := strict) pizza).
  - reflexivity.
  - unfold well_typed, has; simpl.
    repeat split; eexists; eexists; split; reflexivity.
Defined.

(** C2, as stated, fails: a negative macro, an empty name and a confidence
    outside the three levels pass, and a record is returned. *)
Lemma C2_out_of_range_is_accepted :
  get "error" out_of_range = None /\
  classify (Decoded (JObject out_of_range)) <> Some SchemaViolation /\
  exists n, analyze_food_image (Decoded (JObject out_of_range)) = inl n /\
            calories n = Finite (-100 # 1) /\ food_name n = "" /\
            confidence n = "banana" /\ ~ in_range n.
Proof.
  split; [reflexivity|]. split; [discriminate|].
  eexists. split; [reflexivity|]. simpl.
  split; [reflexivity|]. split; [reflexivity|]. split; [reflexivity|].
  intros [Hname _]. apply Hname. reflexivity.
Qed.

(** Where the validators part: an integer beyond the range of a double is
    refused by the validator that rounds to a double, and the call ends
    in the schema error; the validator that takes every number returns a
    record. *)
Lemma huge_number_is_for_the_validator :
  get "error" huge_calories = None /\
  @classify doubles (Decoded (JObject huge_calories)) =
    Some SchemaViolation /\
  @analyze_food_image doubles (Decoded (JObject huge_calories)) =
    inr {| error := INVALID_FORMAT |} /\
  exists n,
    @analyze_food_image strict (Decoded (JObject huge_calories)) = inl n.
Proof.
  split; [reflexivity|]. split; [vm_compute; reflexivity|].
  split; [vm_compute; reflexivity|]. eexists. reflexivity.
Qed.

(** NaN passes the validator of [float], and the record holds it. *)
Lemma nan_is_a_float :
  get "error" nan_calories = None /\
  exists n,
    @analyze_food_image doubles (Decoded (JObject nan_calories)) = inl n /\
    calories n = NonFinite NaN /\ protein_g n = Finite (18 # 1).
Proof.
  split; [reflexivity|]. eexists. split; [vm_compute; reflexivity|].
  split; reflexivity.
Qed.

(** C3, as stated, fails: with an [error] field and a full set of valid
    nutrition fields the call still answers with the not-food error. *)
Lemma C3_error_field_wins_over_nutrition :
  (exists n, NutritionInfo_init pizza_with_error = Some n /\ in_range n) /\
  classify (Decoded (JObject pizza_with_error)) = Some NotFood /\
  analyze_food_image (Decoded (JObject pizza_with_error)) =
  inr {| error := "This may not be food" |}.
Proof.
  split.
  - eexists. split; [reflexivity|]. unfold in_range; simpl.
    repeat split; try discriminate. left. reflexivity.
  - split; reflexivity.
Qed.

End AdapterSamples.

(** ** The history store *)

Section Sorting.
Import Database.
Variable A : Type.
Variable key : A -> Z.

Lemma insert_desc_Permutation x l :
  Permutation (x :: l) (insert_desc key x l).
Proof.
  induction l as [|y l IH]; simpl.
  - apply Permutation_refl.
  - destruct (key y <=? key x).
    + apply Permutation_refl.
    + apply perm_trans with (y :: x :: l).
      * apply perm_swap.
      * apply perm_skip. exact IH.
Qed.

Lemma insert_desc_Sorted x l :
  StronglySorted (descending key) l ->
  StronglySorted (descending key) (insert_desc key x l).
Proof.
  induction l as [|y l IH]; simpl; intros Hs.
  - constructor; constructor.
  - inversion Hs as [|? ? Hl Hy]; subst.
    destruct (key y <=? key x) eqn:Hle.
    + apply Z.leb_le in Hle. constructor; [exact Hs|].
      constructor; [exact Hle|].
      eapply Forall_impl; [|exact Hy]. unfold descending. intros z Hz. lia.
    + apply Z.leb_gt in Hle. constructor; [apply IH; exact Hl|].
      eapply Permutation_Forall; [apply insert_desc_Permutation|].
      constructor; [unfold descending; lia | exact Hy].
Qed.

Lemma sort_desc_Permutation l : Permutation l (sort_desc key l).
Proof.
  induction l as [|x l IH]; simpl.
  - constructor.
  - eapply perm_trans; [|apply insert_desc_Permutation].
    apply perm_skip. exact IH.
Qed.

Lemma sort_desc_Sorted l : StronglySorted (descending key) (sort_desc key l).
Proof.
  induction l as [|x l IH]; simpl.
  - constructor.
  - apply insert_desc_Sorted. exact IH.
Qed.

Lemma sort_desc_rev_Permutation l : Permutation l (sort_desc_rev key l).
Proof.
  unfold sort_desc_rev. eapply perm_trans; [apply Permutation_rev|].
  apply sort_desc_Permutation.
Qed.

(** A sorted list split in two: the second part lies below the first. *)
Lemma Sorted_app_below l1 l2 :
  StronglySorted (descending key) (l1 ++ l2) ->
  forall x y, In x l1 -> In y l2 -> descending key x y.
Proof.
  induction l1 as [|a l1 IH]; simpl; intros Hs x y Hx Hy.
  - contradiction.
  - inversion Hs as [|? ? Hl Ha]; subst. destruct Hx as [<-|Hx].
    + rewrite Forall_forall in Ha. apply Ha. apply in_or_app. auto.
    + eapply IH; eauto.
Qed.

Lemma Sorted_app_left l1 l2 :
  StronglySorted (descending key) (l1 ++ l2) ->
  StronglySorted (descending key) l1.
Proof.
  induction l1 as [|a l1 IH]; simpl; intros Hs.
  - constructor.
  - inversion Hs as [|? ? Hl Ha]; subst. constructor; [auto|].
    apply Forall_app in Ha. tauto.
Qed.

Lemma Sorted_firstn n l :
  StronglySorted (descending key) l ->
  StronglySorted (descending key) (firstn n l).
Proof.
  intros Hs. rewrite <- (firstn_skipn n l) in Hs.
  eapply Sorted_app_left. exact Hs.
Qed.

Lemma Sorted_firstn_best n l :
  StronglySorted (descending key) l ->
  forall y, In y l ->
    In y (firstn n l) \/ forall x, In x (firstn n l) -> descending key x y.
Proof.
  intros Hs y Hy. rewrite <- (firstn_skipn n l) in Hs, Hy.
  apply in_app_or in Hy. destruct Hy as [Hy|Hy]; [left; exact Hy|].
  right. intros x Hx. eapply Sorted_app_below; eauto.
Qed.

End Sorting.

(** The two engines are engines. *)
#[export] Instance scan_order : Database.Engine := {|
  Database.order_by_desc := @Database.sort_desc;
  Database.order_by_desc_Permutation := sort_desc_Permutation;
  Database.order_by_desc_Sorted := sort_desc_Sorted
|}.

Definition reverse_order : Database.Engine := {|
  Database.order_by_desc := @Database.sort_desc_rev;
  Database.order_by_desc_Permutation := sort_desc_rev_Permutation;
  Database.order_by_desc_Sorted :=
    fun A key l => @sort_desc_Sorted A key (rev l)
|}.

Section Queries.
Import Database StoreSpec.
Context {E : Engine}.

Lemma LIMIT_firstn (A : Type) (n : Z) (l : list A) :
  0 <= n -> LIMIT n l = firstn (Z.to_nat n) l.
Proof.
  intros Hn. unfold LIMIT. destruct (n <? 0) eqn:Hlt; [|reflexivity].
  apply Z.ltb_lt in Hlt. lia.
Qed.

Lemma group_by_food_name_names rows :
  map fst (group_by_food_name rows) = nodup string_dec (map food_name rows).
Proof.
  unfold group_by_food_name. rewrite map_map. simpl. apply map_id.
Qed.

Lemma group_by_food_name_In rows n c :
  In (n, c) (group_by_food_name rows) <->
  In n (map food_name rows) /\ c = occurrences rows n.
Proof.
  unfold group_by_food_name, occurrences. rewrite in_map_iff. split.
  - intros [m [Heq Hm]]. injection Heq as -> <-.
    apply nodup_In in Hm. auto.
  - intros [Hn ->]. exists n. split; [reflexivity|].
    apply nodup_In. exact Hn.
Qed.

Lemma occurrences_pos rows n :
  In n (map food_name rows) -> 1 <= occurrences rows n.
Proof.
  intros Hn. unfold occurrences.
  apply (count_occ_In string_dec) in Hn. lia.
Qed.

Lemma NoDup_firstn (A : Type) (n : nat) (l : list A) :
  NoDup l -> NoDup (firstn n l).
Proof.
  intros Hl. rewrite <- (firstn_skipn n l) in Hl.
  eapply NoDup_app_remove_r. exact Hl.
Qed.

Lemma In_firstn (A : Type) (n : nat) (l : list A) (x : A) :
  In x (firstn n l) -> In x l.
Proof.
  intros Hx. rewrite <- (firstn_skipn n l). apply in_or_app. auto.
Qed.

(** [GROUP BY food_name ORDER BY count DESC LIMIT k] ranks by count. *)
Lemma top_ranked rows k :
  0 <= k ->
  ranked_by_count rows (Z.to_nat k)
    (LIMIT k (order_by_desc snd (group_by_food_name rows))).
Proof.
  intros Hk. rewrite LIMIT_firstn by exact Hk.
  set (groups := group_by_food_name rows).
  pose proof (order_by_desc_Permutation _ snd groups) as Hperm.
  pose proof (order_by_desc_Sorted _ snd groups) as Hsorted.
  set (full := order_by_desc snd groups) in *.
  constructor.
  - intros n c Hin. apply In_firstn in Hin.
    apply (Permutation_in _ (Permutation_sym Hperm)) in Hin.
    apply group_by_food_name_In in Hin. destruct Hin as [Hn ->].
    split; [reflexivity | apply occurrences_pos; exact Hn].
  - rewrite <- firstn_map. apply NoDup_firstn.
    apply (Permutation_NoDup (Permutation_map fst Hperm)).
    unfold groups. rewrite group_by_food_name_names. apply NoDup_nodup.
  - apply Sorted_firstn. exact Hsorted.
  - intros r Hr.
    assert (Hg : In (food_name r, occurrences rows (food_name r)) full).
    { apply (Permutation_in _ Hperm). apply group_by_food_name_In.
      split; [apply in_map; exact Hr | reflexivity]. }
    destruct (@Sorted_firstn_best _ snd (Z.to_nat k) full Hsorted _ Hg)
      as [Hin|Hbelow].
    + left. apply (in_map fst) in Hin. exact Hin.
    + right. intros g Hgin. apply (Hbelow g Hgin).
  - rewrite length_firstn. f_equal.
    rewrite <- (Permutation_length Hperm). unfold groups.
    rewrite <- group_by_food_name_names. symmetry. apply length_map.
Qed.

Lemma filter_nonempty_COUNT (rows : list Row) :
  rows <> [] -> (0 <? COUNT rows) = true.
Proof.
  intros Hne. apply Z.ltb_lt. unfold COUNT.
  destruct rows; [contradiction | simpl; lia].
Qed.

Lemma AVG_nonempty (l : list Q) :
  l <> [] -> AVG l = VFloat (SUM l / inject_Z (COUNT l)).
Proof. destruct l; [contradiction | reflexivity]. Qed.

Lemma map_nonempty [A B : Type] (f : A -> B) [l : list A] :
  l <> [] -> map f l <> [].
Proof. destruct l; [contradiction | discriminate]. Qed.

(** [MIN] returns an element, and a least one. *)
Lemma fold_min_least (x : Z) (l : list Z) :
  In (fold_right Z.min x l) (x :: l) /\
  forall y, In y (x :: l) -> fold_right Z.min x l <= y.
Proof.
  induction l as [|a l [IHin IHle]]; simpl.
  - split; [auto | intros y [<-|[]]; lia].
  - split.
    + destruct (Z.min_spec a (fold_right Z.min x l)) as [[_ ->]|[_ ->]].
      * right; left; reflexivity.
      * simpl in IHin. destruct IHin as [Hx|Hl]; [left | right; right]; auto.
    + intros y [<-|[<-|Hy]].
      * specialize (IHle x (or_introl eq_refl)). lia.
      * lia.
      * specialize (IHle y (or_intror Hy)). lia.
Qed.

Lemma MIN_least (l : list Z) :
  l <> [] ->
  exists m, MIN l = VDate m /\ In m l /\ forall y, In y l -> m <= y.
Proof.
  destruct l as [|x l]; [contradiction|]. intros _.
  destruct (fold_min_least x l) as [Hin Hle].
  exists (fold_right Z.min x l). auto.
Qed.

Lemma nodup_nonempty (rows : list Row) :
  rows <> [] -> (1 <= List.length (nodup string_dec (map food_name rows)))%nat.
Proof.
  destruct rows as [|r rows]; [contradiction|]. intros _.
  assert (Hin : In (food_name r) (nodup string_dec (map food_name (r :: rows))))
    by (apply nodup_In; left; reflexivity).
  destruct (nodup string_dec (map food_name (r :: rows)));
    [contradiction | simpl; lia].
Qed.

(** C1, as amended.  The foods of the all-time and of the weekly ranking
    are chosen by count: each entry of the top three carries the number of
    rows of its name, counts do not increase along the list, and a name
    left out occurs no more often than any name listed; the most common
    food of the week is a name of highest count.  The queries order by
    count alone, so which of several names of one count comes first is
    left to the engine. *)
Theorem C1_foods_are_ranked_by_count (utcnow : Z) (s : Store) (u : Z) :
  (all_time s u <> [] ->
   exists stats top,
     get_all_time_stats Healthy s u = Some stats /\
     get "top_foods" stats = Some (VList (map food_dict top)) /\
     ranked_by_count (all_time s u) 3 top) /\
  (this_week utcnow s u <> [] ->
   exists stats g,
     get_weekly_stats Healthy utcnow s u = Some stats /\
     get "most_common_food" stats = Some (VStr (fst g)) /\
     ranked_by_count (this_week utcnow s u) 1 [g]).
Proof.
  split.
  - intros Hne. unfold get_all_time_stats. fold (all_time s u).
    rewrite (filter_nonempty_COUNT _ Hne).
    eexists. eexists. split; [reflexivity|]. split; [reflexivity|].
    apply (top_ranked (all_time s u) 3). lia.
  - intros Hne. unfold get_weekly_stats. fold (monday utcnow).
    fold (this_week utcnow s u). rewrite (filter_nonempty_COUNT _ Hne).
    assert (Hr := top_ranked (this_week utcnow s u) 1 ltac:(lia)).
    pose proof (ranked_length _ _ _ Hr) as Hlen.
    pose proof (nodup_nonempty _ Hne) as Hnames.
    change (Z.to_nat 1) with 1%nat in Hlen, Hr.
    remember (LIMIT 1 (order_by_desc snd
                (group_by_food_name (this_week utcnow s u)))) as top eqn:Htop.
    clear Htop. destruct top as [|g [|g' rest]].
    + cbn [List.length] in Hlen. lia.
    + eexists. exists g. split; [reflexivity|]. split; [reflexivity|].
      exact Hr.
    + cbn [List.length] in Hlen. lia.
Qed.

Lemma on_date_spec (u date : Z) (r : Row) :
  on_date u date r = true <-> user_id r = u /\ day_of r = date.
Proof.
  unfold on_date, day_of. rewrite andb_true_iff, !Z.eqb_eq. tauto.
Qed.



Lemma recent_spec (u cutoff : Z) (r : Row) :
  recent u cutoff r = true <->
  user_id r = u /\ cutoff <= analyzed_at r * 1000000.
Proof.
  unfold recent. rewrite andb_true_iff, Z.eqb_eq, Z.leb_le. tauto.
Qed.

Lemma get_user_history_window (utcnow : Z) (s : Store) (u days limit : Z) :
  0 <= limit ->
  exists full,
    Permutation (window utcnow s u days) full /\
    StronglySorted (descending analyzed_at) full /\
    get_user_history Healthy utcnow s u days limit =
    firstn (Z.to_nat limit) full.
Proof.
  intros Hlimit. unfold get_user_history. fold (window utcnow s u days).
  exists (order_by_desc analyzed_at (window utcnow s u days)).
  split; [apply order_by_desc_Permutation|].
  split; [apply order_by_desc_Sorted|].
  apply LIMIT_firstn. exact Hlimit.
Qed.

Lemma history_days_range (a : Bot.days_arg) : 1 <= Bot.history_days a <= 30.
Proof. destruct a; simpl; lia. Qed.

(** C9.  [cmd_history] brings [days] into 1..30, and the rows it gets are
    rows of the user, not older than [days] days, the most recent first;
    of a row written 25 hours ago and a row written 2 hours ago, one day
    of history has the second only. *)
Theorem C9_history_is_recent_and_ordered
        (utcnow : Z) (s : Store) (u : Z) (a : Bot.days_arg) :
  1 <= Bot.history_days a <= 30 /\
  (forall days, 1 <= days <= 30 -> Bot.history_days (Bot.Int days) = days) /\
  (forall r, In r (Bot.cmd_history Healthy utcnow s u a) ->
     In r (nutrition_history s) /\ user_id r = u /\
     utcnow - Bot.history_days a * 86400000000 <= analyzed_at r * 1000000) /\
  StronglySorted (descending analyzed_at)
    (Bot.cmd_history Healthy utcnow s u a) /\
  (exists steak salad,
     nutrition_history Stores.two_rows = [steak; salad] /\
     analyzed_at steak = (125 - 25) * 3600 /\
     analyzed_at salad = (125 - 2) * 3600 /\
     Bot.cmd_history Healthy (125 * 3600000000) Stores.two_rows 7 (Bot.Int 1) =
       [salad]).
Proof.
  split; [apply history_days_range|].
  split; [intros days Hdays; simpl; lia|].
  unfold Bot.cmd_history.
  destruct (get_user_history_window utcnow s u (Bot.history_days a)
              default_limit ltac:(unfold default_limit; lia))
    as [full [Hperm [Hsorted ->]]].
  split; [|split].
  - intros r Hr. apply In_firstn in Hr.
    apply (Permutation_in _ (Permutation_sym Hperm)) in Hr.
    unfold window in Hr. apply filter_In in Hr. destruct Hr as [Hin Hrecent].
    apply recent_spec in Hrecent. tauto.
  - apply Sorted_firstn. exact Hsorted.
  - eexists. eexists. split; [reflexivity|].
    split; [reflexivity|]. split; [reflexivity|].
    change (Bot.history_days (Bot.Int 1)) with 1.
    destruct (get_user_history_window (125 * 3600000000) Stores.two_rows 7 1
                default_limit ltac:(unfold default_limit; lia))
      as [full' [Hperm' [_ ->]]].
    set (w := window (125 * 3600000000) Stores.two_rows 7 1) in Hperm'.
    vm_compute in w. subst w.
    apply Permutation_length_1_inv in Hperm'. rewrite Hperm'. reflexivity.
Qed.

(** C10.  Through [cmd_history] the history has 20 rows at most, whatever
    [days] is: [limit] keeps its default, and of more than 20 rows in the
    window 20 are returned. *)
Theorem C10_history_is_capped_at_twenty
        (utcnow : Z) (s : Store) (u : Z) (a : Bot.days_arg) :
  List.length (Bot.cmd_history Healthy utcnow s u a) =
    Nat.min 20 (List.length (window utcnow s u (Bot.history_days a))) /\
  (List.length (Bot.cmd_history Healthy utcnow s u a) <= 20)%nat /\
  ((20 < List.length (window utcnow s u (Bot.history_days a)))%nat ->
   List.length (Bot.cmd_history Healthy utcnow s u a) = 20%nat).
Proof.
  unfold Bot.cmd_history.
  destruct (get_user_history_window utcnow s u (Bot.history_days a)
              default_limit ltac:(unfold default_limit; lia))
    as [full [Hperm [_ ->]]].
  rewrite length_firstn, <- (Permutation_length Hperm).
  change (Z.to_nat default_limit) with 20%nat. lia.
Qed.

Lemma max_rowid_bound (rows : list Row) (r : Row) :
  In r rows -> id r <= max_rowid rows.
Proof.
  induction rows as [|x rows IH]; simpl; [contradiction|].
  intros [<-|Hr]; [lia | specialize (IH Hr); lia].
Qed.


End Queries.

(** *** The queries on the stores above *)

Section StoreSamples.
Import Database StoreSpec Stores.


(** Three rows of 100 kcal on the Monday and one of 900 on the Tuesday:
    the weekly mean is 1200 / 4, not the 1200 / 2 of an average per day. *)
Example weekly_mean_is_not_per_day :
  (mean calories (this_week wednesday uneven_week 7) == 300)%Q /\
  (per_day calories (this_week wednesday uneven_week 7) == 600)%Q /\
  exists stats q,
    get_weekly_stats Healthy wednesday uneven_week 7 = Some stats /\
    get "avg_calories" stats = Some (VFloat q) /\ (q == 300)%Q.
Proof.
  split; [reflexivity|]. split; [reflexivity|].
  eexists. eexists. split; [reflexivity|]. split; reflexivity.
Qed.

(** Of 21 rows of one hour, [/history] shows 20. *)
Example twenty_of_twenty_one :
  List.length (window wednesday (snacks 21 init) 7 1) = 21%nat /\
  List.length
    (Bot.cmd_history Healthy wednesday (snacks 21 init) 7 Bot.Absent) =
    20%nat.
Proof. split; vm_compute; reflexivity. Qed.

(** C1, as stated, fails.  Apple and Banana have one row each; an engine
    that answers [ORDER BY count DESC] with the rows of equal count in
    reverse of their input puts Banana first, in the week and in the top
    three, against the lexicographic order; an engine that keeps the
    input order puts Apple first.  The stored rows do not fix the answer. *)
Lemma C1_tie_is_left_to_the_engine :
  occurrences (all_time apple_banana 7) "Apple" =
    occurrences (all_time apple_banana 7) "Banana" /\
  precedes ("Apple", 1) ("Banana", 1) /\
  (exists stats,
     @get_weekly_stats reverse_order Healthy wednesday apple_banana 7 =
       Some stats /\
     get "most_common_food" stats = Some (VStr "Banana")) /\
  (exists stats,
     @get_all_time_stats reverse_order Healthy apple_banana 7 = Some stats /\
     get "top_foods" stats =
       Some (VList (map food_dict [("Banana", 1); ("Apple", 1)])) /\
     ~ StronglySorted precedes [("Banana", 1); ("Apple", 1)]) /\
  (exists stats,
     @get_weekly_stats scan_order Healthy wednesday apple_banana 7 =
       Some stats /\
     get "most_common_food" stats = Some (VStr "Apple")).
Proof.
  split; [reflexivity|].
  split; [right; split; reflexivity|].
  split; [eexists; split; reflexivity|].
  split; [|eexists; split; reflexivity].
  eexists. split; [reflexivity|]. split; [reflexivity|].
  intros Hsorted. inversion Hsorted as [|? ? _ Hall]; subst.
  inversion Hall as [|? ? Hp _]; subst.
  destruct Hp as [Hlt|[_ Hname]]; [simpl in Hlt; lia | discriminate].
Qed.


End StoreSamples.

(** ** The sums of the daily summary *)

Section Rounding.
Import Binary64.

Lemma binary64_Qeq (p q : Q) : (p == q)%Q -> binary64 p -> binary64 q.
Proof.
  intros Heq (m & e & Hm & He & Hp). exists m, e.
  repeat split; try tauto. rewrite <- Heq. exact Hp.
Qed.

Lemma scale_0 (m : Z) : (scale m 0 == inject_Z m)%Q.
Proof. unfold scale, pow2. simpl. change (inject_Z 1) with 1%Q. ring. Qed.

(** A whole number below 2^53 is a double. *)
Lemma binary64_whole (z : Z) : Z.abs z < 2 ^ 53 -> binary64 (inject_Z z).
Proof.
  intros Hz. exists z, 0. repeat split; try lia.
  symmetry. apply scale_0.
Qed.

(** What [round64] returns is a double. *)
Lemma round64_binary64 (q y : Q) : round64 q = Some y -> binary64 y.
Proof.
  unfold round64.
  destruct ((Z.pos (Qden (Qred q)) =? 1) && (Z.abs (Qnum (Qred q)) <? 2 ^ 53))
    eqn:Hwhole.
  - intros Hy. injection Hy as <-.
    apply andb_true_iff in Hwhole. destruct Hwhole as [Hden Hnum].
    apply Z.eqb_eq in Hden. apply Z.ltb_lt in Hnum.
    apply (binary64_Qeq (inject_Z (Qnum (Qred q)))).
    + destruct (Qred q) as [n d]. simpl in *.
      injection Hden as ->. reflexivity.
    + apply binary64_whole. exact Hnum.
  - set (e := Z.max _ (-1074)).
    set (m := nearest_even _).
    set (e' := if m =? 2 ^ 53 then e + 1 else e).
    set (m' := if m =? 2 ^ 53 then 2 ^ 52 else m).
    destruct ((Z.abs m' <? 2 ^ 53) && (e' <=? 971)) eqn:Hfits; [|discriminate].
    intros Hy. injection Hy as <-.
    apply andb_true_iff in Hfits. destruct Hfits as [Hm He].
    apply Z.ltb_lt in Hm. apply Z.leb_le in He.
    apply (binary64_Qeq (scale (Z.sgn (Qnum q) * m') e')).
    + apply Qeq_sym. apply (Qred_correct (scale (Z.sgn (Qnum q) * m') e')).
    + exists (Z.sgn (Qnum q) * m'), e'. repeat split.
      * rewrite Z.abs_mul.
        assert (Hs : 0 <= Z.abs (Z.sgn (Qnum q)) <= 1)
          by (destruct (Qnum q); simpl; lia).
        pose proof (Z.abs_nonneg m'). nia.
      * unfold e', e. destruct (m =? 2 ^ 53); lia.
      * exact He.
Qed.

Lemma Qred_whole (z : Z) : Qred (inject_Z z) = inject_Z z.
Proof.
  pose proof (Qred_correct (inject_Z z)) as Hc.
  pose proof (gcd_Qred (inject_Z z)) as Hg.
  destruct (Qred (inject_Z z)) as [n d]. unfold Qeq in Hc. simpl in Hc, Hg.
  assert (Hd : Z.pos d = 1).
  { apply Z.divide_1_r_nonneg; [lia|]. rewrite <- Hg.
    apply Z.gcd_greatest; [|apply Z.divide_refl].
    exists z. lia. }
  injection Hd as ->. unfold inject_Z. f_equal. lia.
Qed.

(** A whole number below 2^53 is not rounded. *)
Lemma round64_whole (q : Q) (z : Z) :
  (q == inject_Z z)%Q -> Z.abs z < 2 ^ 53 -> round64 q = Some (inject_Z z).
Proof.
  intros Hq Hz. unfold round64.
  rewrite (Qred_complete _ _ Hq).
  rewrite Qred_whole.
  cbn [inject_Z Qden Qnum]. apply Z.ltb_lt in Hz. rewrite Hz. reflexivity.
Qed.

(** An odd whole number above 2^53 is no double: it needs more than 53
    bits. *)
Lemma not_binary64_odd (n : Z) :
  2 ^ 53 < n -> Z.odd n = true -> ~ binary64 (inject_Z n).
Proof.
  intros Hbig Hodd (m & e & Hm & He & Hn).
  unfold scale, pow2 in Hn. destruct (0 <=? e) eqn:Hsign.
  - apply Z.leb_le in Hsign.
    rewrite <- inject_Z_mult in Hn.
    unfold Qeq in Hn. cbn [inject_Z Qnum Qden] in Hn.
    rewrite !Z.mul_1_r in Hn.
    destruct (Z.eq_dec e 0) as [->|Hpos].
    + rewrite Z.pow_0_r in Hn. lia.
    + replace e with (Z.succ (e - 1)) in Hn by lia.
      rewrite Z.pow_succ_r in Hn by lia.
      rewrite Hn in Hodd.
      replace (m * (2 * 2 ^ (e - 1))) with (2 * (m * 2 ^ (e - 1))) in Hodd
        by ring.
      rewrite Z.odd_mul in Hodd. discriminate.
  - apply Z.leb_gt in Hsign.
    assert (Hp : 0 < 2 ^ (- e)) by (apply Z.pow_pos_nonneg; lia).
    unfold Qeq in Hn. simpl in Hn.
    rewrite Z2Pos.id in Hn by exact Hp. nia.
Qed.

End Rounding.

Section Sums.
Import Binary64 Database Doubles.

Lemma fold_add64_binary64 (l : list Q) (acc : value) (q : Q) :
  (forall a, acc = VFloat a -> binary64 a) ->
  fold_left add64 l acc = VFloat q -> binary64 q.
Proof.
  revert acc. induction l as [|x l IH]; simpl; intros acc Hacc Hq.
  - apply Hacc. exact Hq.
  - apply (IH (add64 acc x)); [|exact Hq].
    intros a Ha. destruct acc; try discriminate. simpl in Ha.
    destruct (round64 (q0 + x)) as [y|] eqn:Hy; [|discriminate].
    injection Ha as <-. apply (round64_binary64 _ _ Hy).
Qed.

Lemma fold_add64_float (l : list Q) (acc : value) :
  is_float acc -> is_float (fold_left add64 l acc).
Proof.
  revert acc. induction l as [|x l IH]; simpl; intros acc Hacc.
  - exact Hacc.
  - apply IH. destruct Hacc as [[a ->]|[negative ->]]; simpl.
    + destruct (round64 (a + x)) as [y|]; [left | right]; eauto.
    + right. eauto.
Qed.

Lemma sum_in_table_order_float (column : Row -> Q) (rows : list Row) :
  rows <> [] -> is_float (sum_in_table_order column rows).
Proof.
  intros Hne. unfold sum_in_table_order.
  destruct rows as [|r rows]; [contradiction|].
  apply fold_add64_float. left. eauto.
Qed.

Lemma sum_in_table_order_binary64 (column : Row -> Q) (rows : list Row)
      (q : Q) :
  sum_in_table_order column rows = VFloat q -> binary64 q.
Proof.
  unfold sum_in_table_order. destruct rows as [|r rows]; [discriminate|].
  apply fold_add64_binary64. intros a Ha. injection Ha as <-.
  apply (binary64_whole 0). simpl. lia.
Qed.

Lemma magnitude_nonneg (zs : list Z) : 0 <= magnitude zs.
Proof. induction zs as [|z zs IH]; simpl; lia. Qed.

(** No addition rounds while the whole numbers added stay below 2^53. *)
Lemma fold_add64_whole (column : Row -> Q) (rows : list Row) (zs : list Z) :
  whole column rows zs ->
  forall (a : Q) (s0 : Z),
    (a == inject_Z s0)%Q -> Z.abs s0 + magnitude zs < 2 ^ 53 ->
    exists q,
      fold_left add64 (map column rows) (VFloat a) = VFloat q /\
      (q == inject_Z (s0 + total zs))%Q.
Proof.
  induction 1 as [|r z rows zs Hr Hrows IH]; intros a s0 Ha Hbound.
  - exists a. split; [reflexivity|]. simpl. rewrite Z.add_0_r. exact Ha.
  - cbn [magnitude fold_right] in Hbound. fold (magnitude zs) in Hbound.
    cbn [map fold_left add64]. pose proof (magnitude_nonneg zs) as Hzs.
    assert (Hsum : (a + column r == inject_Z (s0 + z))%Q)
      by (rewrite Ha, Hr, inject_Z_plus; reflexivity).
    rewrite (round64_whole _ _ Hsum) by lia.
    destruct (IH (inject_Z (s0 + z)) (s0 + z)) as [q [Hq Heq]];
      [reflexivity | lia |].
    exists q. split; [exact Hq|].
    rewrite Heq. cbn [total fold_right]. fold (total zs).
    rewrite Z.add_assoc. reflexivity.
Qed.

Lemma sum_in_table_order_whole (column : Row -> Q) (rows : list Row)
      (zs : list Z) :
  rows <> [] -> whole column rows zs -> magnitude zs < 2 ^ 53 ->
  exists q,
    sum_in_table_order column rows = VFloat q /\
    (q == inject_Z (total zs))%Q.
Proof.
  intros Hne Hwhole Hbound. unfold sum_in_table_order.
  destruct rows as [|r rows]; [contradiction|].
  destruct (fold_add64_whole _ _ _ Hwhole 0%Q 0) as [q [Hq Heq]];
    [reflexivity | simpl; lia |].
  exists q. split; [exact Hq|]. rewrite Heq. reflexivity.
Qed.

(** The sum of whole numbers, in the rationals. *)
Lemma whole_SUM (column : Row -> Q) (rows : list Row) (zs : list Z) :
  whole column rows zs -> (SUM (map column rows) == inject_Z (total zs))%Q.
Proof.
  induction 1 as [|r z rows zs Hr Hrows IH]; simpl.
  - reflexivity.
  - rewrite Hr, IH, <- inject_Z_plus. reflexivity.
Qed.

End Sums.

(** Adding in the order of the table is an arithmetic. *)
Definition table_order : Doubles.Arithmetic := {|
  Doubles.SUM_REAL := Doubles.sum_in_table_order;
  Doubles.SUM_REAL_float := sum_in_table_order_float;
  Doubles.SUM_REAL_binary64 := sum_in_table_order_binary64;
  Doubles.SUM_REAL_whole := sum_in_table_order_whole
|}.

Section DailySums.
Import Binary64 Database StoreSpec Doubles.
Context {A : Arithmetic}.


End DailySums.

Section DailySumsSamples.
Import Binary64 Database StoreSpec Doubles Stores.


(** The doubles 0.1, 0.2 and 0.3 added one after the other: the result
    is the double next above 0.6, as [0.1 + 0.2 + 0.3] is in Python. *)
Lemma tenths_add_up_above_six_tenths :
  fold_left add64
    [ 3602879701896397 # 36028797018963968;
      3602879701896397 # 18014398509481984;
      5404319552844595 # 18014398509481984 ] (VFloat 0) =
  VFloat (1351079888211149 # 2251799813685248).
Proof. vm_compute. reflexivity. Qed.

(** 10^16, 1 and -10^16 added one after the other: the 1 is lost in the
    first rounding, and the sum is 0 where the exact sum is 1. *)
Lemma small_term_is_lost :
  fold_left add64 [10000000000000000%Q; 1%Q; (-10000000000000000)%Q]
    (VFloat 0) = VFloat 0 /\
  (SUM [10000000000000000%Q; 1%Q; (-10000000000000000)%Q] == 1)%Q.
Proof. split; [vm_compute; reflexivity | reflexivity]. Qed.

End DailySumsSamples.

(** * Further properties *)

(** ** The analysis adapter *)

Section AdapterMore.
Import Json Models OpenAIClient AdapterSpec.
Context {R : Runtime}.

Lemma NutritionInfo_init_holds d n :
  holds d n -> NutritionInfo_init d = Some n.
Proof.
  intros (H1 & H2 & H3 & H4 & H5 & H6 & H7 & H8).
  unfold NutritionInfo_init. rewrite H1, H2, H3, H4, H5, H6, H7, H8.
  destruct n; reflexivity.
Qed.

(** X1.  The call returns a nutrition record in one case only: the
    response decodes to an object that has no [error] key and whose eight
    fields validate; the record then holds the validated values.  This
    is so for every validator, also one that refuses a number. *)
Theorem analyze_returns_record_iff (r : response)
        (n : NutritionInfo_of float) :
  analyze_food_image r = inl n <->
  exists d, r = Decoded (JObject d) /\ get "error" d = None /\ holds d n.
Proof.
  split.
  - intros Hn. destruct (no_record_without_object _ _ Hn) as [d ->].
    exists d. split; [reflexivity|].
    unfold analyze_food_image in Hn.
    destruct (get "error" d) as [v|] eqn:Herr.
    + rewrite (analyze_steps_error _ _ Herr) in Hn.
      destruct (validate_str v); discriminate.
    + split; [reflexivity|]. rewrite (analyze_steps_object _ Herr) in Hn.
      destruct (NutritionInfo_init d) as [n'|] eqn:Hinit; [|discriminate].
      injection Hn as <-. apply NutritionInfo_init_Some. exact Hinit.
  - intros [d [-> [Herr Hholds]]]. unfold analyze_food_image.
    rewrite (analyze_steps_object _ Herr).
    rewrite (NutritionInfo_init_holds _ _ Hholds). reflexivity.
Qed.

(** The keys that the call looks up. *)
Definition schema_keys : list string :=
  [ "error"; "food_name"; "calories"; "protein_g"; "carbs_g"; "fats_g";
    "fiber_g"; "serving_size"; "confidence" ].

Lemma get_skip (k k' : string) (v : json) (d1 d2 : object) :
  k' <> k -> get k' (d1 ++ (k, v) :: d2) = get k' (d1 ++ d2).
Proof.
  intros Hne. induction d1 as [|[k1 v1] d1 IH]; simpl.
  - destruct (String.eqb_spec k' k) as [Heq|_]; [contradiction | reflexivity].
  - rewrite IH. reflexivity.
Qed.

(** X2.  A key outside the schema changes nothing: with or without it
    the call ends by the same [return] with the same value. *)
Theorem unknown_key_is_ignored (k : string) (v : json) (d1 d2 : object) :
  ~ In k schema_keys ->
  analyze_steps (Decoded (JObject (d1 ++ (k, v) :: d2))) =
  analyze_steps (Decoded (JObject (d1 ++ d2))).
Proof.
  intros Hk.
  assert (Hget : forall k', In k' schema_keys ->
            get k' (d1 ++ (k, v) :: d2) = get k' (d1 ++ d2)).
  { intros k' Hin. apply get_skip. intros ->. contradiction. }
  unfold analyze_steps, contains_error, subscript_error, mem,
    NutritionInfo_init, field.
  rewrite !Hget by (unfold schema_keys; simpl; tauto).
  destruct (get "error" (d1 ++ d2)); reflexivity.
Qed.

(** The text of an error by the [return] that made it. *)
Lemma error_text_by_return (r : response) :
  match analyze_steps r with
  | (ret_parse_failure, res) => res = inr {| error := PARSE_FAILED |}
  | (ret_validation_error, res) => res = inr {| error := INVALID_FORMAT |}
  | (ret_exception, res) =>
      exists msg, res = inr {| error := (ANALYZE_FAILED ++ msg)%string |}
  | (ret_service_error, res) => exists e, res = inr e
  | (ret_nutrition, res) => exists n, res = inl n
  end.
Proof.
  destruct r as [msg| |data].
  - simpl. eauto.
  - reflexivity.
  - destruct data as [ | b | q | x | s | l | d ];
      try (rewrite analyze_steps_non_object by discriminate; simpl; eauto).
    destruct (get "error" d) as [v|] eqn:Herr.
    + rewrite (analyze_steps_error _ _ Herr).
      destruct (validate_str v); simpl; eauto.
    + rewrite (analyze_steps_object _ Herr).
      destruct (NutritionInfo_init d); simpl; eauto.
Qed.

(** X3.  The errors that the call words itself can be told apart by
    their text: of two errors of different kinds, neither of them the
    explanation passed on from the service, the texts differ. *)
Theorem own_errors_differ_by_text (r1 r2 : response) (e1 e2 : ErrorResponse) :
  analyze_food_image r1 = inr e1 ->
  analyze_food_image r2 = inr e2 ->
  classify r1 <> Some NotFood ->
  classify r2 <> Some NotFood ->
  classify r1 <> classify r2 ->
  error e1 <> error e2.
Proof.
  unfold analyze_food_image, classify.
  pose proof (error_text_by_return r1) as H1.
  pose proof (error_text_by_return r2) as H2.
  destruct (analyze_steps r1) as [s1 res1], (analyze_steps r2) as [s2 res2].
  simpl. intros -> -> Hn1 Hn2 Hdiff.
  destruct s1, s2; simpl in *;
    try congruence;
    repeat match goal with
           | H : exists _, _ |- _ => destruct H
           | H : inr _ = inr _ |- _ => injection H as ->
           | H : inr _ = inl _ |- _ => discriminate H
           end;
    simpl; unfold PARSE_FAILED, INVALID_FORMAT, ANALYZE_FAILED; simpl;
    discriminate.
Qed.

End AdapterMore.

Section AdapterMoreSamples.
Import Json Models OpenAIClient AdapterSpec Samples.

(** X2 at a [notes] key in front of the fields of the pizza. *)
Lemma unknown_key_is_ignored_witness :
  ~ In "notes" schema_keys /\
  analyze_steps (Decoded (JObject (("notes", JString "hot") :: pizza))) =
  analyze_steps (Decoded (JObject pizza)).
Proof.
  assert (Hk : ~ In "notes" schema_keys).
  { unfold schema_keys. simpl. intros H.
    repeat (destruct H as [H|H]; [discriminate H|]). exact H. }
  split; [exact Hk|].
  exact (unknown_key_is_ignored (R := strict) "notes" (JString "hot")
           [] pizza Hk).
Defined.

(** X3 at a text that is no JSON and at an array. *)
Lemma own_errors_differ_by_text_witness :
  error {| error := PARSE_FAILED |} <>
  error {| error := (ANALYZE_FAILED ++ "TypeError")%string |}.
Proof.
  apply (own_errors_differ_by_text (R := strict)
           Undecodable (Decoded (JArray []))).
  - reflexivity.
  - reflexivity.
  - discriminate.
  - discriminate.
  - discriminate.
Defined.

End AdapterMoreSamples.

(** ** The history store *)

Section StoreMore.
Import Database StoreSpec Reach.
Context {E : Engine}.

(** What a call of [save_analysis] that SQLite carries out adds. *)
Lemma save_analysis_appends (utcnow : Z) (s : Store) (u : Z) (name : string)
      (n : Models.NutritionInfo) (photo : string) :
  exists row,
    nutrition_history (fst (save_analysis Healthy utcnow s u name n photo)) =
      nutrition_history s ++ [row] /\
    sqlite_sequence (fst (save_analysis Healthy utcnow s u name n photo)) =
      id row /\
    id row = Z.max (max_rowid (nutrition_history s)) (sqlite_sequence s) + 1 /\
    user_id row = u /\
    analyzed_at row = CURRENT_TIMESTAMP utcnow /\
    food_name row = Models.food_name n /\
    calories row = Models.calories n /\
    protein_g row = Models.protein_g n /\
    carbs_g row = Models.carbs_g n /\
    fats_g row = Models.fats_g n /\
    fiber_g row = Models.fiber_g n.
Proof. eexists. simpl. repeat split. Qed.

Lemma max_rowid_le (rows : list Row) (b : Z) :
  0 <= b -> (forall r, In r rows -> id r <= b) -> max_rowid rows <= b.
Proof.
  intros Hb. induction rows as [|x rows IH]; simpl; intros Hall; [exact Hb|].
  apply Z.max_lub; [apply Hall; auto | apply IH; auto].
Qed.

(** X4.  In a store of the application the keys count the rows: the
    n-th row inserted has the key n, whoever it belongs to, so no key
    comes twice, and [sqlite_sequence] is the number of rows. *)
Theorem reachable_ids_count_rows (s : Store) :
  reachable s ->
  map id (nutrition_history s) =
    map Z.of_nat (seq 1 (List.length (nutrition_history s))) /\
  sqlite_sequence s = COUNT (nutrition_history s) /\
  NoDup (map id (nutrition_history s)).
Proof.
  intros Hreach.
  assert (Hinv : map id (nutrition_history s) =
                   map Z.of_nat (seq 1 (List.length (nutrition_history s))) /\
                 sqlite_sequence s = COUNT (nutrition_history s)).
  { unfold reachable in Hreach.
    induction Hreach as [|db utcnow s' u name n photo _ [IHids IHseq]].
    - split; reflexivity.
    - destruct db; [|split; assumption].
      destruct (save_analysis_appends utcnow s' u name n photo)
        as [row (Hrows & Hseq & Hid & _)].
      rewrite Hrows, Hseq. clear Hrows Hseq.
      assert (Hmax : max_rowid (nutrition_history s') <=
                     COUNT (nutrition_history s')).
      { apply max_rowid_le; [unfold COUNT; lia|].
        intros r Hr. apply (in_map id) in Hr. rewrite IHids in Hr.
        apply in_map_iff in Hr. destruct Hr as [k [<- Hk]].
        apply in_seq in Hk. unfold COUNT. lia. }
      rewrite IHseq in Hid. rewrite Z.max_r in Hid by exact Hmax.
      unfold COUNT in *. rewrite length_app, map_app. simpl.
      rewrite Nat.add_1_r, seq_S, map_app, IHids. simpl.
      split; [f_equal; f_equal; lia | lia]. }
  destruct Hinv as [Hids Hseq]. split; [exact Hids|]. split; [exact Hseq|].
  rewrite Hids. apply NoDup_map_NoDup_ForallPairs.
  - intros x y _ _. apply Nat2Z.inj.
  - apply seq_NoDup.
Qed.

(** A row of another user passes none of the four selections. *)
Lemma selections_skip_other_user (s : Store) (row : Row) (v : Z) :
  user_id row <> v ->
  forall rows, rows = nutrition_history s ++ [row] ->
    (forall cutoff, filter (recent v cutoff) rows =
                    filter (recent v cutoff) (nutrition_history s)) /\
    (forall date, filter (on_date v date) rows =
                  filter (on_date v date) (nutrition_history s)) /\
    (forall start, filter (since v start) rows =
                   filter (since v start) (nutrition_history s)) /\
    filter (of_user v) rows = filter (of_user v) (nutrition_history s).
Proof.
  intros Hne rows ->.
  assert (Hno : (user_id row =? v) = false) by (apply Z.eqb_neq; exact Hne).
  repeat split; intros; rewrite filter_app; simpl;
    unfold recent, on_date, since, of_user; rewrite Hno; simpl;
    apply app_nil_r.
Qed.

(** X5.  A meal saved for one user leaves what every other user reads as
    it was: history, daily summary, weekly and all-time statistics. *)
Theorem save_leaves_other_users_alone
        (db db' : sqlite) (t utcnow : Z) (s : Store) (u v : Z)
        (name : string) (n : Models.NutritionInfo) (photo : string) :
  u <> v ->
  let s' := fst (save_analysis db t s u name n photo) in
  (forall days limit,
     get_user_history db' utcnow s' v days limit =
     get_user_history db' utcnow s v days limit) /\
  (forall date,
     get_daily_summary db' utcnow s' v date =
     get_daily_summary db' utcnow s v date) /\
  get_weekly_stats db' utcnow s' v = get_weekly_stats db' utcnow s v /\
  get_all_time_stats db' s' v = get_all_time_stats db' s v.
Proof.
  intros Hne s'. destruct db; [|repeat split].
  destruct (save_analysis_appends t s u name n photo)
    as [row (Hrows & _ & _ & Huser & _)].
  fold s' in Hrows.
  assert (Hrow : user_id row <> v) by (rewrite Huser; exact Hne).
  destruct (selections_skip_other_user s row v Hrow _ Hrows)
    as (Hrecent & Hdate & Hsince & Huserv).
  unfold get_user_history, get_daily_summary, get_weekly_stats,
    get_all_time_stats.
  repeat split; intros; destruct db'; try reflexivity.
  - rewrite Hrecent. reflexivity.
  - rewrite Hdate. reflexivity.
  - rewrite Hsince. reflexivity.
  - rewrite Huserv. reflexivity.
Qed.

Lemma DATE_CURRENT_TIMESTAMP (utcnow : Z) :
  DATE (CURRENT_TIMESTAMP utcnow) = today utcnow.
Proof.
  unfold DATE, CURRENT_TIMESTAMP, today.
  rewrite Z.div_div by lia. reflexivity.
Qed.

Lemma monday_le_today (utcnow : Z) : monday utcnow <= today utcnow.
Proof.
  unfold monday, weekday.
  pose proof (Z.mod_pos_bound (today utcnow + 3) 7 ltac:(lia)). lia.
Qed.

(** The second that [CURRENT_TIMESTAMP] keeps of an instant. *)
Lemma CURRENT_TIMESTAMP_bounds (utcnow : Z) :
  utcnow - 1000000 < CURRENT_TIMESTAMP utcnow * 1000000 <= utcnow.
Proof.
  unfold CURRENT_TIMESTAMP.
  pose proof (Z.div_mod utcnow 1000000 ltac:(lia)).
  pose proof (Z.mod_pos_bound utcnow 1000000 ltac:(lia)). lia.
Qed.

Lemma SUM_app (l : list Q) (x : Q) : (SUM (l ++ [x]) == SUM l + x)%Q.
Proof.
  induction l as [|y l IH]; simpl.
  - ring.
  - rewrite IH. ring.
Qed.

Lemma COUNT_app (A : Type) (l : list A) (x : A) :
  COUNT (l ++ [x]) = COUNT l + 1.
Proof. unfold COUNT. rewrite length_app. simpl. lia. Qed.

Lemma get_daily_summary_nonempty (utcnow : Z) (s : Store) (u date : Z) :
  that_day s u date <> [] ->
  get_daily_summary Healthy utcnow s u (Some date) =
  Some [ ("date", VDate date);
         ("meal_count", VInt (COUNT (that_day s u date)));
         ("total_calories", VFloat (SUM (map calories (that_day s u date))));
         ("total_protein_g",
           VFloat (SUM (map protein_g (that_day s u date))));
         ("total_carbs_g", VFloat (SUM (map carbs_g (that_day s u date))));
         ("total_fats_g", VFloat (SUM (map fats_g (that_day s u date))));
         ("total_fiber_g", VFloat (SUM (map fiber_g (that_day s u date)))) ].
Proof.
  intros Hne. unfold get_daily_summary. fold (that_day s u date).
  destruct (that_day s u date); [contradiction | reflexivity].
Qed.

(** The four selections after a call that SQLite carries out, for the
    user and the instant of the call. *)
Lemma selections_after_save (utcnow : Z) (s : Store) (u : Z) (name : string)
      (n : Models.NutritionInfo) (photo : string) :
  exists row,
    nutrition_history (fst (save_analysis Healthy utcnow s u name n photo)) =
      nutrition_history s ++ [row] /\
    user_id row = u /\
    analyzed_at row = CURRENT_TIMESTAMP utcnow /\
    calories row = Models.calories n /\
    protein_g row = Models.protein_g n /\
    carbs_g row = Models.carbs_g n /\
    fats_g row = Models.fats_g n /\
    fiber_g row = Models.fiber_g n /\
    let s' := fst (save_analysis Healthy utcnow s u name n photo) in
    that_day s' u (today utcnow) = that_day s u (today utcnow) ++ [row] /\
    this_week utcnow s' u = this_week utcnow s u ++ [row] /\
    all_time s' u = all_time s u ++ [row] /\
    (forall days, 1 <= days ->
       window utcnow s' u days = window utcnow s u days ++ [row]).
Proof.
  destruct (save_analysis_appends utcnow s u name n photo)
    as [row (Hrows & _ & _ & Huser & Hat & _ &
             Hcal & Hpro & Hcarb & Hfat & Hfib)].
  exists row. repeat (split; [assumption|]).
  intros s'. fold s' in Hrows.
  assert (Hu : (user_id row =? u) = true) by (apply Z.eqb_eq; exact Huser).
  assert (Hday : DATE (analyzed_at row) = today utcnow)
    by (rewrite Hat; apply DATE_CURRENT_TIMESTAMP).
  unfold that_day, this_week, all_time, window. rewrite Hrows.
  repeat split; intros; rewrite filter_app; simpl;
    unfold on_date, since, of_user, recent; rewrite Hu; simpl.
  - rewrite Hday, Z.eqb_refl. reflexivity.
  - rewrite Hday. pose proof (monday_le_today utcnow) as Hle.
    apply Z.leb_le in Hle. rewrite Hle. reflexivity.
  - reflexivity.
  - pose proof (CURRENT_TIMESTAMP_bounds utcnow) as Hb. rewrite <- Hat in Hb.
    assert (Hle : (utcnow - days * 86400000000 <=? analyzed_at row * 1000000)
                  = true) by (apply Z.leb_le; lia).
    rewrite Hle. reflexivity.
Qed.


(** X7.  A meal saved now is counted at once by the statistics of its
    user: one analysis more in the all-time and in the weekly statistics,
    and one row more in the window of any history of a day or more. *)
Theorem saved_meal_counts_in_statistics (utcnow : Z) (s : Store) (u : Z)
        (name : string) (n : Models.NutritionInfo) (photo : string) :
  let s' := fst (save_analysis Healthy utcnow s u name n photo) in
  (exists stats,
     get_all_time_stats Healthy s' u = Some stats /\
     get "total_analyses" stats = Some (VInt (COUNT (all_time s u) + 1))) /\
  (exists stats,
     get_weekly_stats Healthy utcnow s' u = Some stats /\
     get "total_analyses" stats =
       Some (VInt (COUNT (this_week utcnow s u) + 1))) /\
  (forall days, 1 <= days ->
     COUNT (window utcnow s' u days) = COUNT (window utcnow s u days) + 1).
Proof.
  intros s'.
  destruct (selections_after_save utcnow s u name n photo)
    as [row (_ & _ & _ & _ & _ & _ & _ & _ & _ & Hweek & Hall & Hwin)].
  fold s' in Hweek, Hall, Hwin.
  assert (Hpos : forall l : list Row, (0 <? COUNT (l ++ [row])) = true).
  { intros l. rewrite COUNT_app. apply Z.ltb_lt. unfold COUNT. lia. }
  split; [|split].
  - unfold get_all_time_stats. fold (all_time s' u).
    rewrite Hall, Hpos. eexists. split; [reflexivity|].
    simpl. rewrite COUNT_app. reflexivity.
  - unfold get_weekly_stats. fold (monday utcnow).
    fold (this_week utcnow s' u).
    rewrite Hweek, Hpos. eexists. split; [reflexivity|].
    simpl. rewrite COUNT_app. reflexivity.
  - intros days Hdays. rewrite (Hwin days Hdays). apply COUNT_app.
Qed.

(** X8.  Of the rows in the window, the history keeps the most recent:
    a row left out is no more recent than any row returned, and when the
    window has no more rows than [limit], all of them are returned. *)
Theorem history_keeps_the_most_recent
        (utcnow : Z) (s : Store) (u days limit : Z) :
  0 <= limit ->
  (forall r, In r (window utcnow s u days) ->
     In r (get_user_history Healthy utcnow s u days limit) \/
     forall x, In x (get_user_history Healthy utcnow s u days limit) ->
               analyzed_at r <= analyzed_at x) /\
  (COUNT (window utcnow s u days) <= limit ->
   Permutation (window utcnow s u days)
               (get_user_history Healthy utcnow s u days limit)).
Proof.
  intros Hlimit.
  destruct (get_user_history_window utcnow s u days limit Hlimit)
    as [full [Hperm [Hsorted ->]]].
  split.
  - intros r Hr. apply (Permutation_in _ Hperm) in Hr.
    destruct (@Sorted_firstn_best _ analyzed_at (Z.to_nat limit) full
                Hsorted r Hr) as [Hin|Hbelow]; [left; exact Hin|].
    right. intros x Hx. apply (Hbelow x Hx).
  - intros Hfit. rewrite firstn_all2; [exact Hperm|].
    rewrite <- (Permutation_length Hperm). unfold COUNT in Hfit. lia.
Qed.

(** X9.  When the clock has moved on since the last meal of the user,
    the meal saved now is the first entry of the history. *)
Theorem saved_meal_heads_history
        (utcnow : Z) (s : Store) (u : Z) (name : string)
        (n : Models.NutritionInfo) (photo : string) (days limit : Z) :
  1 <= days -> 1 <= limit ->
  (forall r, In r (nutrition_history s) -> user_id r = u ->
             analyzed_at r < CURRENT_TIMESTAMP utcnow) ->
  let s' := fst (save_analysis Healthy utcnow s u name n photo) in
  exists row rest,
    nutrition_history s' = nutrition_history s ++ [row] /\
    get_user_history Healthy utcnow s' u days limit = row :: rest.
Proof.
  intros Hdays Hlimit Hclock s'.
  destruct (selections_after_save utcnow s u name n photo)
    as [row (Hrows & _ & Hat & _ & _ & _ & _ & _ & _ & _ & _ & Hwin)].
  fold s' in Hrows, Hwin. specialize (Hwin days Hdays).
  destruct (get_user_history_window utcnow s' u days limit ltac:(lia))
    as [full [Hperm [Hsorted ->]]].
  rewrite Hwin in Hperm.
  assert (Hrow : In row full).
  { apply (Permutation_in _ Hperm). apply in_or_app. right. left. reflexivity. }
  destruct full as [|x rest]; [contradiction|].
  assert (Hx : x = row).
  { assert (Hxin : In x (window utcnow s u days ++ [row]))
      by (apply (Permutation_in _ (Permutation_sym Hperm)); left; reflexivity).
    apply in_app_or in Hxin.
    destruct Hxin as [Hold|[Heq|[]]]; [|exact (eq_sym Heq)].
    exfalso. unfold window in Hold. apply filter_In in Hold.
    destruct Hold as [Hin Hrecent]. apply recent_spec in Hrecent.
    destruct Hrecent as [Hu _]. specialize (Hclock x Hin Hu).
    inversion Hsorted as [|? ? _ Hall]; subst.
    destruct Hrow as [Heq|Hrest].
    - rewrite Heq, Hat in Hclock. lia.
    - rewrite Forall_forall in Hall. specialize (Hall row Hrest).
      unfold descending in Hall. rewrite Hat in Hall. lia. }
  subst x. exists row, (firstn (Z.to_nat limit - 1) rest).
  split; [exact Hrows|].
  replace (Z.to_nat limit) with (S (Z.to_nat limit - 1)) at 1 by lia.
  reflexivity.
Qed.

Lemma fold_max_greatest (x : Z) (l : list Z) :
  In (fold_right Z.max x l) (x :: l) /\
  forall y, In y (x :: l) -> y <= fold_right Z.max x l.
Proof.
  induction l as [|a l [IHin IHle]]; simpl.
  - split; [auto | intros y [<-|[]]; lia].
  - split.
    + destruct (Z.max_spec a (fold_right Z.max x l)) as [[_ ->]|[_ ->]].
      * simpl in IHin. destruct IHin as [Hx|Hl]; [left | right; right]; auto.
      * right; left; reflexivity.
    + intros y [<-|[<-|Hy]].
      * specialize (IHle x (or_introl eq_refl)). lia.
      * lia.
      * specialize (IHle y (or_intror Hy)). lia.
Qed.

Lemma MAX_greatest (l : list Z) :
  l <> [] ->
  exists m, MAX l = VDate m /\ In m l /\ forall y, In y l -> y <= m.
Proof.
  destruct l as [|x l]; [contradiction|]. intros _.
  destruct (fold_max_greatest x l) as [Hin Hle].
  exists (fold_right Z.max x l). auto.
Qed.

Lemma since_spec (u start : Z) (r : Row) :
  since u start r = true <-> user_id r = u /\ start <= day_of r.
Proof.
  unfold since, day_of. rewrite andb_true_iff, Z.eqb_eq, Z.leb_le. tauto.
Qed.

(** X10.  The span that the weekly statistics show is the span of the
    rows counted: [start_date] and [end_date] are the earliest and the
    latest date of a row of the week, none of them before the Monday. *)
Theorem weekly_span_is_the_span_of_the_rows (utcnow : Z) (s : Store) (u : Z) :
  this_week utcnow s u <> [] ->
  exists stats first last,
    get_weekly_stats Healthy utcnow s u = Some stats /\
    get "start_date" stats = Some (VDate first) /\
    get "end_date" stats = Some (VDate last) /\
    In first (map day_of (this_week utcnow s u)) /\
    In last (map day_of (this_week utcnow s u)) /\
    monday utcnow <= first <= last /\
    forall r, In r (this_week utcnow s u) -> first <= day_of r <= last.
Proof.
  intros Hne. unfold get_weekly_stats. fold (monday utcnow).
  fold (this_week utcnow s u). rewrite (filter_nonempty_COUNT _ Hne).
  fold day_of.
  destruct (MIN_least _ (map_nonempty day_of Hne))
    as [first [Hmin [Hfirst Hleast]]].
  destruct (MAX_greatest _ (map_nonempty day_of Hne))
    as [last [Hmax [Hlast Hgreatest]]].
  rewrite Hmin, Hmax. eexists. exists first, last.
  split; [reflexivity|]. split; [reflexivity|]. split; [reflexivity|].
  split; [exact Hfirst|]. split; [exact Hlast|]. split.
  - split; [|apply Hgreatest; exact Hfirst].
    apply in_map_iff in Hfirst. destruct Hfirst as [r [<- Hr]].
    unfold this_week in Hr. apply filter_In in Hr. destruct Hr as [_ Hr].
    apply since_spec in Hr. tauto.
  - intros r Hr. split; [apply Hleast | apply Hgreatest];
      apply in_map; exact Hr.
Qed.

(** X11.  The week of the weekly statistics starts on the Monday of
    today (UTC): a Monday, not after today and less than seven days
    before it. *)
Theorem week_starts_on_monday (utcnow : Z) :
  weekday (monday utcnow) = 0 /\
  monday utcnow <= today utcnow <= monday utcnow + 6.
Proof.
  unfold monday, weekday.
  pose proof (Z.div_mod (today utcnow + 3) 7 ltac:(lia)) as Hdiv.
  pose proof (Z.mod_pos_bound (today utcnow + 3) 7 ltac:(lia)) as Hmod.
  split; [|lia].
  replace (today utcnow - (today utcnow + 3) mod 7 + 3)
    with (((today utcnow + 3) / 7) * 7) by lia.
  apply Z.mod_mul. lia.
Qed.

Lemma COUNT_positive (A : Type) (l : list A) :
  (0 <? COUNT l) = true -> l <> [].
Proof. intros Hpos ->. discriminate Hpos. Qed.

(** The dictionary of [get_weekly_stats], when there is one. *)
Lemma weekly_stats_shape (db : sqlite) (utcnow : Z) (s : Store) (u : Z)
      (stats : dict) :
  get_weekly_stats db utcnow s u = Some stats ->
  this_week utcnow s u <> [] /\
  exists first last g,
    ranked_by_count (this_week utcnow s u) 1 [g] /\
    stats =
    [ ("total_analyses", VInt (COUNT (this_week utcnow s u)));
      ("avg_calories", VFloat (mean calories (this_week utcnow s u)));
      ("avg_protein", VFloat (mean protein_g (this_week utcnow s u)));
      ("avg_carbs", VFloat (mean carbs_g (this_week utcnow s u)));
      ("avg_fats", VFloat (mean fats_g (this_week utcnow s u)));
      ("avg_fiber", VFloat (mean fiber_g (this_week utcnow s u)));
      ("start_date", VDate first);
      ("end_date", VDate last);
      ("most_common_food", VStr (fst g)) ].
Proof.
  destruct db; [|discriminate].
  unfold get_weekly_stats. fold (monday utcnow). fold (this_week utcnow s u).
  destruct (0 <? COUNT (this_week utcnow s u)) eqn:Hpos; [|discriminate].
  apply COUNT_positive in Hpos. rename Hpos into Hne.
  intros Hstats. split; [exact Hne|]. injection Hstats as <-.
  rewrite !AVG_nonempty by (apply map_nonempty; exact Hne).
  fold day_of.
  destruct (MIN_least _ (map_nonempty day_of Hne)) as [first [-> _]].
  destruct (MAX_greatest _ (map_nonempty day_of Hne)) as [last [-> _]].
  assert (Hr := top_ranked (this_week utcnow s u) 1 ltac:(lia)).
  pose proof (ranked_length _ _ _ Hr) as Hlen.
  pose proof (nodup_nonempty _ Hne) as Hnames.
  change (Z.to_nat 1) with 1%nat in Hlen, Hr.
  remember (LIMIT 1 (order_by_desc snd
              (group_by_food_name (this_week utcnow s u)))) as top eqn:Htop.
  clear Htop. destruct top as [|g [|g' rest]].
  - cbn [List.length] in Hlen. lia.
  - exists first, last, g. split; [exact Hr|].
    unfold mean, COUNT. rewrite !length_map. reflexivity.
  - cbn [List.length] in Hlen. lia.
Qed.

(** The dictionary of [get_all_time_stats], when there is one. *)
Lemma all_time_stats_shape (db : sqlite) (s : Store) (u : Z) (stats : dict) :
  get_all_time_stats db s u = Some stats ->
  all_time s u <> [] /\
  exists first top,
    top = LIMIT 3 (order_by_desc snd (group_by_food_name (all_time s u))) /\
    ranked_by_count (all_time s u) 3 top /\
    stats =
    [ ("total_analyses", VInt (COUNT (all_time s u)));
      ("avg_calories", VFloat (mean calories (all_time s u)));
      ("avg_protein", VFloat (mean protein_g (all_time s u)));
      ("avg_carbs", VFloat (mean carbs_g (all_time s u)));
      ("avg_fats", VFloat (mean fats_g (all_time s u)));
      ("first_analysis", VDate first);
      ("days_tracked", VInt (COUNT_DISTINCT (map day_of (all_time s u))));
      ("top_foods", VList (map food_dict top)) ].
Proof.
  destruct db; [|discriminate].
  unfold get_all_time_stats. fold (all_time s u).
  destruct (0 <? COUNT (all_time s u)) eqn:Hpos; [|discriminate].
  apply COUNT_positive in Hpos. rename Hpos into Hne.
  intros Hstats. split; [exact Hne|]. injection Hstats as <-.
  rewrite !AVG_nonempty by (apply map_nonempty; exact Hne).
  fold day_of.
  destruct (MIN_least _ (map_nonempty day_of Hne)) as [first [-> _]].
  exists first. eexists. split; [reflexivity|].
  split; [apply (top_ranked (all_time s u) 3); lia|].
  unfold mean, COUNT at 2 3 4 5. rewrite !length_map. reflexivity.
Qed.


(** A name that occurs more often than every other is the first of any
    ranking. *)
Lemma favourite_is_ranked_first (rows : list Row) (k : nat)
      (g : string * Z) (rest : list (string * Z)) (n : string) :
  ranked_by_count rows k (g :: rest) ->
  In n (map food_name rows) ->
  (forall m, In m (map food_name rows) -> m <> n ->
             occurrences rows m < occurrences rows n) ->
  fst g = n.
Proof.
  intros Hr Hn Hmax.
  destruct (string_dec (fst g) n) as [Heq|Hne]; [exact Heq|]. exfalso.
  destruct g as [m c]. simpl in Hne.
  destruct (ranked_counts _ _ _ Hr m c (or_introl eq_refl)) as [Hc Hpos].
  assert (Hm : In m (map food_name rows)).
  { apply (count_occ_In string_dec). unfold occurrences in Hc. lia. }
  specialize (Hmax m Hm Hne).
  apply in_map_iff in Hn. destruct Hn as [r [Hname Hr_in]].
  destruct (ranked_best _ _ _ Hr r Hr_in) as [Hlisted|Hbelow].
  - rewrite Hname in Hlisted. simpl in Hlisted.
    destruct Hlisted as [Heq|Hrest]; [contradiction|].
    apply in_map_iff in Hrest. destruct Hrest as [[n' c'] [Hn' Hin']].
    simpl in Hn'. subst n'.
    destruct (ranked_counts _ _ _ Hr n c' (or_intror Hin')) as [Hc' _].
    pose proof (ranked_sorted _ _ _ Hr) as Hsorted.
    inversion Hsorted as [|? ? _ Hall]; subst.
    rewrite Forall_forall in Hall. specialize (Hall _ Hin').
    unfold descending in Hall. simpl in Hall. lia.
  - specialize (Hbelow (m, c) (or_introl eq_refl)).
    rewrite Hname in Hbelow. simpl in Hbelow. lia.
Qed.

(** X13.  When one food of the week occurs more often than every other,
    it is the most common food, whatever the engine does with equal
    counts. *)
Theorem clear_favourite_is_most_common
        (utcnow : Z) (s : Store) (u : Z) (n : string) :
  In n (map food_name (this_week utcnow s u)) ->
  (forall m, In m (map food_name (this_week utcnow s u)) -> m <> n ->
     occurrences (this_week utcnow s u) m <
     occurrences (this_week utcnow s u) n) ->
  exists stats,
    get_weekly_stats Healthy utcnow s u = Some stats /\
    get "most_common_food" stats = Some (VStr n).
Proof.
  intros Hn Hmax.
  assert (Hne : this_week utcnow s u <> []).
  { intros Hnil. rewrite Hnil in Hn. contradiction. }
  assert (Hsome : exists stats,
             get_weekly_stats Healthy utcnow s u = Some stats).
  { unfold get_weekly_stats. fold (monday utcnow).
    fold (this_week utcnow s u). rewrite (filter_nonempty_COUNT _ Hne).
    eexists. reflexivity. }
  destruct Hsome as [stats Hstats]. exists stats. split; [exact Hstats|].
  destruct (weekly_stats_shape _ _ _ _ _ Hstats)
    as [_ [first [last [g [Hr ->]]]]].
  rewrite (favourite_is_ranked_first _ _ _ _ _ Hr Hn Hmax). reflexivity.
Qed.

(** The counts of [names] over a list [m] of names, summed. *)
Lemma sum_counts_cons (a : string) (names m : list string) :
  fold_right Z.add 0
    (map (fun n => Z.of_nat (count_occ string_dec (a :: names) n)) m) =
  fold_right Z.add 0
    (map (fun n => Z.of_nat (count_occ string_dec names n)) m) +
  Z.of_nat (count_occ string_dec m a).
Proof.
  induction m as [|x m IH]; [reflexivity|].
  cbn [map fold_right]. rewrite IH. simpl count_occ.
  destruct (string_dec a x) as [Hax|Hax];
    destruct (string_dec x a) as [Hxa|Hxa]; try congruence; lia.
Qed.

Lemma sum_counts_NoDup (names m : list string) :
  NoDup m -> incl names m ->
  fold_right Z.add 0
    (map (fun n => Z.of_nat (count_occ string_dec names n)) m) =
  Z.of_nat (List.length names).
Proof.
  intros Hm. induction names as [|a names IH]; intros Hincl.
  - clear Hm Hincl. induction m as [|x m IHm]; simpl;
      [reflexivity | exact IHm].
  - rewrite sum_counts_cons.
    rewrite IH by (intros y Hy; apply Hincl; right; exact Hy).
    assert (Hone : count_occ string_dec m a = 1%nat).
    { apply NoDup_count_occ'; [exact Hm|]. apply Hincl. left. reflexivity. }
    rewrite Hone. simpl List.length. lia.
Qed.

Lemma group_counts_add_up (rows : list Row) :
  total_count (group_by_food_name rows) = COUNT rows.
Proof.
  unfold total_count, group_by_food_name, COUNT.
  rewrite map_map. simpl.
  rewrite sum_counts_NoDup.
  - rewrite length_map. reflexivity.
  - apply NoDup_nodup.
  - intros n Hn. apply nodup_In. exact Hn.
Qed.

Lemma total_count_Permutation (l l' : list (string * Z)) :
  Permutation l l' -> total_count l = total_count l'.
Proof.
  unfold total_count. induction 1; simpl; lia.
Qed.

Lemma total_count_app (l l' : list (string * Z)) :
  total_count (l ++ l') = total_count l + total_count l'.
Proof.
  unfold total_count. induction l as [|x l IH]; simpl; [reflexivity | lia].
Qed.

Lemma total_count_nonneg (l : list (string * Z)) :
  (forall g, In g l -> 0 <= snd g) -> 0 <= total_count l.
Proof.
  unfold total_count. induction l as [|x l IH]; simpl; intros Hall; [lia|].
  pose proof (Hall x (or_introl eq_refl)).
  assert (0 <= fold_right Z.add 0 (map snd l)) by (apply IH; auto). lia.
Qed.

(** X14.  The counts of the foods shown never exceed the number of
    analyses, and with three different foods or fewer they add up to it. *)
Theorem top_food_counts_add_up (s : Store) (u : Z) :
  all_time s u <> [] ->
  exists stats top,
    get_all_time_stats Healthy s u = Some stats /\
    get "top_foods" stats = Some (VList (map food_dict top)) /\
    get "total_analyses" stats = Some (VInt (COUNT (all_time s u))) /\
    total_count top <= COUNT (all_time s u) /\
    ((List.length (nodup string_dec (map food_name (all_time s u))) <= 3)%nat ->
     total_count top = COUNT (all_time s u)).
Proof.
  intros Hne.
  assert (Hsome : exists stats, get_all_time_stats Healthy s u = Some stats).
  { unfold get_all_time_stats. fold (all_time s u).
    rewrite (filter_nonempty_COUNT _ Hne). eexists. reflexivity. }
  destruct Hsome as [stats Hstats].
  destruct (all_time_stats_shape _ _ _ _ Hstats)
    as [_ [first [top [Htop [_ ->]]]]].
  eexists. exists top. split; [exact Hstats|].
  split; [reflexivity|]. split; [reflexivity|].
  rewrite LIMIT_firstn in Htop by lia.
  set (groups := group_by_food_name (all_time s u)) in *.
  pose proof (order_by_desc_Permutation _ snd groups) as Hperm.
  set (full := order_by_desc snd groups) in *.
  assert (Htotal : total_count full = COUNT (all_time s u)).
  { rewrite <- (total_count_Permutation _ _ Hperm).
    apply group_counts_add_up. }
  assert (Hsplit : total_count full =
                   total_count top + total_count (skipn (Z.to_nat 3) full)).
  { rewrite Htop, <- total_count_app, firstn_skipn. reflexivity. }
  split.
  - assert (0 <= total_count (skipn (Z.to_nat 3) full)); [|lia].
    apply total_count_nonneg. intros g Hg.
    assert (Hin : In g full).
    { rewrite <- (firstn_skipn (Z.to_nat 3) full). apply in_or_app. auto. }
    apply (Permutation_in _ (Permutation_sym Hperm)) in Hin.
    destruct g as [n c]. apply group_by_food_name_In in Hin.
    destruct Hin as [_ ->]. unfold occurrences. simpl. lia.
  - intros Hfew. rewrite Htop, firstn_all2; [exact Htotal|].
    rewrite <- (Permutation_length Hperm). unfold groups.
    rewrite <- (length_map fst), group_by_food_name_names.
    change (Z.to_nat 3) with 3%nat. exact Hfew.
Qed.

End StoreMore.

(** ** The handlers *)

Section HandlersMore.
Import Json Models OpenAIClient Database Bot Handlers StoreSpec Reach.
Context {R : Runtime} {E : Engine}.

Lemma sender_name_nonempty (m : photo_message) : sender_name m <> "".
Proof.
  unfold sender_name, or_text.
  destruct (from_username m) as [name|].
  - destruct (String.eqb_spec name "") as [_|Hname]; [|exact Hname].
    destruct (String.eqb_spec (from_first_name m) "") as [_|Hfirst];
      [discriminate | exact Hfirst].
  - destruct (String.eqb_spec (from_first_name m) "") as [_|Hfirst];
      [discriminate | exact Hfirst].
Qed.

(** The record of the finite macros holds the fields of the record. *)
Lemma finite_Some (result : NutritionInfo_of float) (n : NutritionInfo) :
  finite result = Some n ->
  Models.food_name n = Models.food_name result /\
  Finite (Models.calories n) = Models.calories result /\
  Finite (Models.protein_g n) = Models.protein_g result /\
  Finite (Models.carbs_g n) = Models.carbs_g result /\
  Finite (Models.fats_g n) = Models.fats_g result /\
  Finite (Models.fiber_g n) = Models.fiber_g result /\
  Models.serving_size n = Models.serving_size result /\
  Models.confidence n = Models.confidence result.
Proof.
  unfold finite.
  destruct result as [name [a|] [b|] [c|] [e|] [f|] size conf];
    simpl; try discriminate.
  intros Hn. injection Hn as <-. simpl. repeat split.
Qed.

(** X15.  [handle_photo] calls [save_analysis] in one case only: the
    photo was fetched, the analysis returned a nutrition record and the
    message with the record was sent.  The call carries that record, the
    id of the sender, the file id of the photo and a name that is never
    empty, and where the macros are finite and SQLite carries out the
    insert, the store gains one row that holds them.  A record whose
    message could not be sent is answered by the error of the handler
    and is not saved. *)
Theorem photo_is_saved_only_after_analysis
        (m : photo_message) (downloaded : bool) (r : response)
        (sent : bool) :
  (snd (handle_photo m downloaded r sent) <> None <->
   downloaded = true /\ sent = true /\
   exists result, analyze_food_image r = inl result) /\
  (sent = false ->
   handle_photo m downloaded r sent = (ErrorProcessing, None)) /\
  (forall result, downloaded = true -> sent = true ->
     analyze_food_image r = inl result ->
     exists c,
       handle_photo m downloaded r sent = (NutritionMessage result, Some c) /\
       call_user_id c = from_id m /\
       call_username c = sender_name m /\ call_username c <> "" /\
       call_nutrition_info c = result /\
       call_photo_file_id c = file_id m /\
       forall n utcnow s, finite result = Some n ->
         exists row,
           nutrition_history
             (fst (save_analysis Healthy utcnow s (call_user_id c)
                     (call_username c) n (call_photo_file_id c))) =
             nutrition_history s ++ [row] /\
           user_id row = from_id m /\
           username row = sender_name m /\
           photo_file_id row = file_id m /\
           analyzed_at row = CURRENT_TIMESTAMP utcnow /\
           food_name row = Models.food_name result /\
           Finite (calories row) = Models.calories result /\
           Finite (protein_g row) = Models.protein_g result /\
           Finite (carbs_g row) = Models.carbs_g result /\
           Finite (fats_g row) = Models.fats_g result /\
           Finite (fiber_g row) = Models.fiber_g result /\
           serving_size row = Models.serving_size result /\
           confidence row = Models.confidence result).
Proof.
  unfold handle_photo. split; [|split].
  - destruct downloaded.
    + destruct (analyze_food_image r) as [n|e], sent; simpl.
      * split; [intros _; eauto | discriminate].
      * split; [intros Hne; contradiction|].
        intros (_ & Hsent & _). discriminate.
      * split; [intros Hne; contradiction|].
        intros (_ & _ & [n Hn]). discriminate.
      * split; [intros Hne; contradiction|].
        intros (_ & Hsent & _). discriminate.
    + simpl. split; [intros Hne; contradiction|].
      intros (Hd & _). discriminate.
  - intros ->. destruct downloaded; [|reflexivity].
    destruct (analyze_food_image r); reflexivity.
  - intros result -> -> ->. eexists. split; [reflexivity|]. simpl.
    split; [reflexivity|]. split; [reflexivity|].
    split; [apply sender_name_nonempty|].
    split; [reflexivity|]. split; [reflexivity|].
    intros n utcnow s Hn.
    destruct (finite_Some _ _ Hn)
      as (H1 & H2 & H3 & H4 & H5 & H6 & H7 & H8).
    eexists. simpl. split; [reflexivity|]. simpl.
    repeat (split; [reflexivity|]).
    repeat (split; [assumption|]). assumption.
Qed.

Lemma history_empty_iff (utcnow : Z) (s : Store) (u days : Z) :
  get_user_history Healthy utcnow s u days default_limit = [] <->
  window utcnow s u days = [].
Proof.
  destruct (get_user_history_window utcnow s u days default_limit
              ltac:(unfold default_limit; lia))
    as [full [Hperm [_ ->]]].
  change (Z.to_nat default_limit) with 20%nat. split.
  - intros Hnil. destruct full as [|x full]; [|discriminate].
    apply Permutation_sym, Permutation_nil in Hperm. exact Hperm.
  - intros Hnil. rewrite Hnil in Hperm. apply Permutation_nil in Hperm.
    rewrite Hperm. reflexivity.
Qed.

Lemma none_iff_empty (A : Type) (rows : list Row) (stats : A) :
  (if 0 <? COUNT rows then Some stats else None) = None <-> rows = [].
Proof.
  destruct rows as [|r rows].
  - split; reflexivity.
  - unfold COUNT. split; [|discriminate].
    destruct (0 <? Z.of_nat (List.length (r :: rows))) eqn:Hpos;
      [discriminate|]. apply Z.ltb_ge in Hpos. simpl in Hpos. lia.
Qed.

(** The keyword arguments of [WeeklyStats] are always there. *)
Lemma WeeklyStats_kwargs_of_stats (db : sqlite) (utcnow : Z) (s : Store)
      (u : Z) (stats : dict) :
  get_weekly_stats db utcnow s u = Some stats ->
  exists first last g,
    ranked_by_count (this_week utcnow s u) 1 [g] /\
    WeeklyStats_kwargs stats =
    Some [ ("start_date", VDate first);
           ("end_date", VDate last);
           ("total_analyses", VInt (COUNT (this_week utcnow s u)));
           ("avg_daily_calories",
             or_value (VFloat (mean calories (this_week utcnow s u)))
                      (VInt 0));
           ("avg_daily_protein",
             or_value (VFloat (mean protein_g (this_week utcnow s u)))
                      (VInt 0));
           ("avg_daily_carbs",
             or_value (VFloat (mean carbs_g (this_week utcnow s u)))
                      (VInt 0));
           ("avg_daily_fats",
             or_value (VFloat (mean fats_g (this_week utcnow s u)))
                      (VInt 0));
           ("most_common_food", VStr (fst g)) ].
Proof.
  intros Hstats.
  destruct (weekly_stats_shape _ _ _ _ _ Hstats)
    as [_ [first [last [g [Hr ->]]]]].
  exists first, last, g. split; [exact Hr | reflexivity].
Qed.

(** X16.  Each read command answers that there is no data in two cases
    only: SQLite raised, or no row of the user passes the selection of
    the command.  A failure of the database cannot be told from an empty
    history. *)
Theorem no_data_replies
        (db : sqlite) (utcnow offset : Z) (s : Store) (u : Z) (a : days_arg) :
  (history_message db utcnow s u a = NoMealHistory (history_days a) <->
   db = Raising \/ window utcnow s u (history_days a) = []) /\
  (cmd_today db utcnow offset s u = NoMealsToday <->
   db = Raising \/
   that_day s u ((utcnow + offset) / 86400000000) = []) /\
  (cmd_week db utcnow s u = NoDataThisWeek <->
   db = Raising \/ this_week utcnow s u = []) /\
  (cmd_stats db s u = NoStatisticsYet <->
   db = Raising \/ all_time s u = []).
Proof.
  destruct db.
  - assert (Hdb : forall P : Prop, (Healthy = Raising \/ P) <-> P).
    { intros P. split; [intros [Hd|HP]; [discriminate | exact HP] | auto]. }
    rewrite !Hdb. repeat split.
    + unfold history_message.
      destruct (get_user_history Healthy utcnow s u (history_days a)
                  default_limit) eqn:Hout; [|discriminate].
      intros _. apply history_empty_iff. exact Hout.
    + intros Hnil. apply history_empty_iff in Hnil.
      unfold history_message. rewrite Hnil. reflexivity.
    + unfold cmd_today, get_daily_summary.
      fold (that_day s u ((utcnow + offset) / 86400000000)).
      destruct (that_day s u ((utcnow + offset) / 86400000000));
        [reflexivity | discriminate].
    + intros Hnil. unfold cmd_today, get_daily_summary.
      fold (that_day s u ((utcnow + offset) / 86400000000)).
      rewrite Hnil. reflexivity.
    + unfold cmd_week.
      destruct (get_weekly_stats Healthy utcnow s u) as [stats|] eqn:Hstats.
      * destruct (WeeklyStats_kwargs_of_stats _ _ _ _ _ Hstats)
          as [first [last [g [_ ->]]]]. discriminate.
      * intros _. unfold get_weekly_stats in Hstats.
        apply none_iff_empty in Hstats. exact Hstats.
    + intros Hnil. unfold cmd_week, get_weekly_stats.
      fold (monday utcnow). fold (this_week utcnow s u).
      rewrite Hnil. reflexivity.
    + unfold cmd_stats.
      destruct (get_all_time_stats Healthy s u) as [stats|] eqn:Hstats;
        [discriminate|].
      intros _. unfold get_all_time_stats in Hstats.
      apply none_iff_empty in Hstats. exact Hstats.
    + intros Hnil. unfold cmd_stats, get_all_time_stats.
      fold (all_time s u). rewrite Hnil. reflexivity.
  - repeat split; auto.
Qed.

(** X17.  [cmd_today] asks for the local date of the server, the rows
    carry UTC dates.  When the two dates differ, a meal saved now is not
    in the summary of [/today], which answers that there are no meals
    unless rows of the local date exist; with a server on UTC it is. *)
Theorem today_is_the_local_date
        (utcnow offset : Z) (s : Store) (u : Z) (name : string)
        (n : NutritionInfo) (photo : string) :
  (utcnow + offset) / 86400000000 <> today utcnow ->
  that_day s u ((utcnow + offset) / 86400000000) = [] ->
  let s' := fst (save_analysis Healthy utcnow s u name n photo) in
  cmd_today Healthy utcnow offset s' u = NoMealsToday /\
  exists summary,
    cmd_today Healthy utcnow 0 s' u = TodaySummary summary /\
    get "meal_count" summary =
      Some (VInt (COUNT (that_day s u (today utcnow)) + 1)).
Proof.
  intros Hdiff Hnone s'.
  destruct (save_analysis_appends utcnow s u name n photo)
    as [row (Hrows & _ & _ & Huser & Hat & _)].
  destruct (selections_after_save utcnow s u name n photo)
    as [row' (_ & _ & _ & _ & _ & _ & _ & _ & Hday & _)].
  fold s' in Hrows, Hday. split.
  - unfold cmd_today, get_daily_summary.
    rewrite Hrows, filter_app.
    fold (that_day s u ((utcnow + offset) / 86400000000)).
    rewrite Hnone. simpl. unfold on_date.
    rewrite Hat, DATE_CURRENT_TIMESTAMP.
    assert (Hneq : (today utcnow =? (utcnow + offset) / 86400000000) = false)
      by (apply Z.eqb_neq; congruence).
    rewrite Hneq, andb_false_r. reflexivity.
  - unfold cmd_today. rewrite Z.add_0_r. fold (today utcnow).
    rewrite get_daily_summary_nonempty
      by (rewrite Hday; intros Hnil; apply app_eq_nil in Hnil;
          destruct Hnil; discriminate).
    eexists. split; [reflexivity|]. simpl. rewrite Hday, COUNT_app.
    reflexivity.
Qed.

Lemma or_zero (q : Q) :
  exists v q',
    or_value (VFloat q) (VInt 0) = v /\ number v = Some q' /\ (q' == q)%Q.
Proof.
  unfold or_value, falsy. destruct (Qeq_bool q 0) eqn:Hzero.
  - exists (VInt 0), (inject_Z 0). split; [reflexivity|].
    split; [reflexivity|]. apply Qeq_bool_eq in Hzero.
    rewrite Hzero. reflexivity.
  - exists (VFloat q), q. split; [reflexivity|].
    split; reflexivity.
Qed.

(** The dictionary of [get_weekly_stats] on a week with rows: its dates
    are the earliest and the latest date of a row of the week, its food
    is a name ranked first. *)
Lemma weekly_stats_of_the_rows (utcnow : Z) (s : Store) (u : Z) :
  this_week utcnow s u <> [] ->
  exists first last g,
    In first (map day_of (this_week utcnow s u)) /\
    (forall r, In r (this_week utcnow s u) -> first <= day_of r) /\
    In last (map day_of (this_week utcnow s u)) /\
    (forall r, In r (this_week utcnow s u) -> day_of r <= last) /\
    ranked_by_count (this_week utcnow s u) 1 [g] /\
    get_weekly_stats Healthy utcnow s u =
    Some [ ("total_analyses", VInt (COUNT (this_week utcnow s u)));
           ("avg_calories", VFloat (mean calories (this_week utcnow s u)));
           ("avg_protein", VFloat (mean protein_g (this_week utcnow s u)));
           ("avg_carbs", VFloat (mean carbs_g (this_week utcnow s u)));
           ("avg_fats", VFloat (mean fats_g (this_week utcnow s u)));
           ("avg_fiber", VFloat (mean fiber_g (this_week utcnow s u)));
           ("start_date", VDate first);
           ("end_date", VDate last);
           ("most_common_food", VStr (fst g)) ].
Proof.
  intros Hne. unfold get_weekly_stats. fold (monday utcnow).
  fold (this_week utcnow s u). rewrite (filter_nonempty_COUNT _ Hne).
  rewrite !AVG_nonempty by (apply map_nonempty; exact Hne).
  fold day_of.
  destruct (MIN_least _ (map_nonempty day_of Hne))
    as [first [-> [Hfirst Hleast]]].
  destruct (MAX_greatest _ (map_nonempty day_of Hne))
    as [last [-> [Hlast Hgreatest]]].
  assert (Hr := top_ranked (this_week utcnow s u) 1 ltac:(lia)).
  pose proof (ranked_length _ _ _ Hr) as Hlen.
  pose proof (nodup_nonempty _ Hne) as Hnames.
  change (Z.to_nat 1) with 1%nat in Hlen, Hr.
  remember (LIMIT 1 (order_by_desc snd
              (group_by_food_name (this_week utcnow s u)))) as top eqn:Htop.
  clear Htop. destruct top as [|g [|g' rest]].
  - cbn [List.length] in Hlen. lia.
  - exists first, last, g.
    split; [exact Hfirst|].
    split; [intros r Hin; apply Hleast, in_map; exact Hin|].
    split; [exact Hlast|].
    split; [intros r Hin; apply Hgreatest, in_map; exact Hin|].
    split; [exact Hr|].
    unfold mean, COUNT. rewrite !length_map. reflexivity.
  - cbn [List.length] in Hlen. lia.
Qed.


End HandlersMore.

(** ** The further properties on the stores above *)

Section MoreSamples.
Import Json Models OpenAIClient Database Bot Handlers StoreSpec Reach Stores.

(** X4 at the three meals. *)
Lemma reachable_ids_count_rows_witness :
  reachable three_meals /\
  map id (nutrition_history three_meals) = [1; 2; 3] /\
  sqlite_sequence three_meals = 3.
Proof.
  assert (Hreach : reachable three_meals).
  { unfold reachable, three_meals, log.
    do 3 apply extends_save. apply extends_refl. }
  split; [exact Hreach|].
  destruct (reachable_ids_count_rows three_meals Hreach) as (Hids & Hseq & _).
  split; [exact Hids | exact Hseq].
Defined.

(** X5 for the users 7 and 8. *)
Lemma save_leaves_other_users_alone_witness :
  7 <> 8 /\
  get_all_time_stats Healthy
    (fst (save_analysis Healthy wednesday three_meals 7 "sam"
            (meal "Soup" 500 2) "file")) 8 =
  get_all_time_stats Healthy three_meals 8.
Proof.
  assert (Hne : 7 <> 8) by discriminate.
  split; [exact Hne|].
  destruct (save_leaves_other_users_alone (E := scan_order)
              Healthy Healthy wednesday wednesday three_meals 7 8
              "sam" (meal "Soup" 500 2) "file" Hne)
    as (_ & _ & _ & Hall).
  exact Hall.
Defined.

(** X8 for a window that fits. *)
Lemma history_keeps_the_most_recent_witness :
  0 <= 20 /\
  Permutation (window wednesday uneven_week 7 3)
              (get_user_history Healthy wednesday uneven_week 7 3 20).
Proof.
  assert (Hlimit : 0 <= 20) by lia.
  split; [exact Hlimit|].
  apply (history_keeps_the_most_recent (E := scan_order)
           wednesday uneven_week 7 3 20 Hlimit).
  vm_compute. discriminate.
Defined.

(** X9 for a third meal, two hours after the second. *)
Lemma saved_meal_heads_history_witness :
  1 <= 1 /\ 1 <= 20 /\
  (forall r, In r (nutrition_history two_rows) -> user_id r = 7 ->
             analyzed_at r < CURRENT_TIMESTAMP (125 * 3600000000)) /\
  exists row rest,
    nutrition_history
      (fst (save_analysis Healthy (125 * 3600000000) two_rows 7 "sam"
              (meal "Soup" 500 2) "file")) =
      nutrition_history two_rows ++ [row] /\
    get_user_history Healthy (125 * 3600000000)
      (fst (save_analysis Healthy (125 * 3600000000) two_rows 7 "sam"
              (meal "Soup" 500 2) "file")) 7 1 20 = row :: rest.
Proof.
  assert (Hdays : 1 <= 1) by lia.
  assert (Hlimit : 1 <= 20) by lia.
  assert (Hclock : forall r, In r (nutrition_history two_rows) ->
            user_id r = 7 ->
            analyzed_at r < CURRENT_TIMESTAMP (125 * 3600000000)).
  { intros r [<-|[<-|[]]] _; vm_compute; reflexivity. }
  split; [exact Hdays|]. split; [exact Hlimit|]. split; [exact Hclock|].
  apply (saved_meal_heads_history (E := scan_order)
           (125 * 3600000000) two_rows 7 "sam" (meal "Soup" 500 2) "file"
           1 20 Hdays Hlimit Hclock).
Defined.

(** X10 at the week of uneven days: Monday to Tuesday. *)
Lemma weekly_span_is_the_span_of_the_rows_witness :
  this_week wednesday uneven_week 7 <> [] /\
  exists stats first last,
    get_weekly_stats Healthy wednesday uneven_week 7 = Some stats /\
    get "start_date" stats = Some (VDate first) /\
    get "end_date" stats = Some (VDate last) /\
    monday wednesday <= first <= last.
Proof.
  assert (Hne : this_week wednesday uneven_week 7 <> [])
    by (vm_compute; discriminate).
  split; [exact Hne|].
  destruct (weekly_span_is_the_span_of_the_rows (E := scan_order)
              wednesday uneven_week 7 Hne)
    as [stats [first [last (Hstats & Hstart & Hend & _ & _ & Hspan & _)]]].
  exists stats, first, last. auto.
Defined.

(** X13 at three Apples and a Banana. *)
Lemma clear_favourite_is_most_common_witness :
  In "Apple" (map food_name (this_week wednesday apples_and_banana 7)) /\
  (forall m,
     In m (map food_name (this_week wednesday apples_and_banana 7)) ->
     m <> "Apple" ->
     occurrences (this_week wednesday apples_and_banana 7) m <
     occurrences (this_week wednesday apples_and_banana 7) "Apple") /\
  exists stats,
    get_weekly_stats Healthy wednesday apples_and_banana 7 = Some stats /\
    get "most_common_food" stats = Some (VStr "Apple").
Proof.
  assert (Hin : In "Apple"
            (map food_name (this_week wednesday apples_and_banana 7)))
    by (vm_compute; auto).
  assert (Hmax : forall m,
            In m (map food_name (this_week wednesday apples_and_banana 7)) ->
            m <> "Apple" ->
            occurrences (this_week wednesday apples_and_banana 7) m <
            occurrences (this_week wednesday apples_and_banana 7) "Apple").
  { intros m Hm Hne. vm_compute in Hm.
    destruct Hm as [<-|[<-|[<-|[<-|[]]]]];
      try (exfalso; apply Hne; reflexivity);
      vm_compute; reflexivity. }
  split; [exact Hin|]. split; [exact Hmax|].
  apply (clear_favourite_is_most_common (E := scan_order)
           wednesday apples_and_banana 7 "Apple" Hin Hmax).
Defined.

(** X14 at the three meals. *)
Lemma top_food_counts_add_up_witness :
  all_time three_meals 7 <> [] /\
  exists stats top,
    get_all_time_stats Healthy three_meals 7 = Some stats /\
    get "top_foods" stats = Some (VList (map food_dict top)) /\
    total_count top <= COUNT (all_time three_meals 7).
Proof.
  assert (Hne : all_time three_meals 7 <> []) by (vm_compute; discriminate).
  split; [exact Hne|].
  destruct (top_food_counts_add_up (E := scan_order) three_meals 7 Hne)
    as [stats [top (Hstats & Htop & _ & Hle & _)]].
  exists stats, top. auto.
Defined.

(** X17 for a server two hours east of UTC, at 23:00 UTC. *)
Lemma today_is_the_local_date_witness :
  (119 * 3600000000 + 2 * 3600000000) / 86400000000 <>
    today (119 * 3600000000) /\
  that_day init 7 ((119 * 3600000000 + 2 * 3600000000) / 86400000000) = [] /\
  cmd_today Healthy (119 * 3600000000) (2 * 3600000000)
    (fst (save_analysis Healthy (119 * 3600000000) init 7 "sam"
            (meal "Soup" 500 2) "file")) 7 = NoMealsToday.
Proof.
  assert (Hdiff : (119 * 3600000000 + 2 * 3600000000) / 86400000000 <>
                  today (119 * 3600000000)) by (vm_compute; discriminate).
  assert (Hnone : that_day init 7
            ((119 * 3600000000 + 2 * 3600000000) / 86400000000) = [])
    by reflexivity.
  split; [exact Hdiff|]. split; [exact Hnone|].
  apply (today_is_the_local_date (119 * 3600000000) (2 * 3600000000)
           init 7 "sam" (meal "Soup" 500 2) "file" Hdiff Hnone).
Defined.


End MoreSamples.
